(** * arXiv semantic search: ingestion script and query service

    A shallow embedding of [scripts/embed_arxiv.py] and [backend/api.py].
    Python values are modelled with their dynamic types where the code can
    meet them (a decoded JSON record may hold anything), exceptions are an
    explicit result type, and the calls into the vector store and the
    printed lines are threaded through an explicit world.

    Strings are [string]: sequences of the code points 0..255. *)

From stdpp Require Import base strings list gmap pretty.
From Stdlib Require Import ZArith Ascii Lia.

Set Warnings "-register-all".

Local Open Scope string_scope.
Local Open Scope list_scope.
Local Open Scope Z_scope.

(** ** Exceptions and results *)

Inductive exn :=
| ValueError
| IndexError
| KeyError
| TypeError
| AttributeError
| OSError
| JSONDecodeError
| DuplicateIDError
| IDAlreadyExistsError
| StoreError
| NotFoundError
| ValidationError
| HTTPException (status_code : Z) (detail : string).

Inductive result (A : Type) :=
| Ok (a : A)
| Raise (e : exn).

Arguments Ok {A} a.
Arguments Raise {A} e.

Definition rbind {A B} (r : result A) (k : A -> result B) : result B :=
  match r with
  | Ok a => k a
  | Raise e => Raise e
  end.

Notation "x <- r ;; k" := (rbind r (fun x => k))
  (at level 100, r at next level, right associativity).

(** ** The [str] methods used by the scripts *)

Module PyStr.

(** [c in s] for a one-character needle. *)
Fixpoint contains (c : ascii) (s : string) : bool :=
  match s with
  | EmptyString => false
  | String a s' => if Ascii.eqb a c then true else contains c s'
  end.

(** [s.split(c)]: every field between occurrences of [c]; never empty. *)
Fixpoint split (c : ascii) (s : string) : list string :=
  match s with
  | EmptyString => [EmptyString]
  | String a s' =>
      if Ascii.eqb a c then EmptyString :: split c s'
      else match split c s' with
           | [] => [String a EmptyString]
           | f :: fs => String a f :: fs
           end
  end.

(** [l[i]] for [i >= 0]. *)
Definition index {A} (l : list A) (i : nat) : result A :=
  match l !! i with
  | Some x => Ok x
  | None => Raise IndexError
  end.

(** [s[:n]]. *)
Fixpoint slice_to (n : nat) (s : string) : string :=
  match n, s with
  | O, _ => EmptyString
  | _, EmptyString => EmptyString
  | S n', String a s' => String a (slice_to n' s')
  end.

Definition code (a : ascii) : N := N_of_ascii a.

(** [str.isspace] on one code point below 256. *)
Definition is_space (a : ascii) : bool :=
  let n := code a in
  ((9 <=? n) && (n <=? 13) || (28 <=? n) && (n <=? 32)
   || (n =? 133) || (n =? 160))%N.

(** The blanks [int()] skips around a literal: the ASCII ones of C, and
    the two non-ASCII spaces, which it first rewrites to [" "]. *)
Definition is_int_space (a : ascii) : bool :=
  let n := code a in
  ((9 <=? n) && (n <=? 13) || (n =? 32) || (n =? 133) || (n =? 160))%N.

Definition digit (a : ascii) : option Z :=
  let n := code a in
  if ((48 <=? n) && (n <=? 57))%N then Some (Z.of_N n - 48) else None.

Fixpoint lstrip_by (p : ascii -> bool) (s : string) : string :=
  match s with
  | EmptyString => EmptyString
  | String a s' => if p a then lstrip_by p s' else s
  end.

Fixpoint all_chars (p : ascii -> bool) (s : string) : bool :=
  match s with
  | EmptyString => true
  | String a s' => p a && all_chars p s'
  end.

Fixpoint rstrip_by (p : ascii -> bool) (s : string) : string :=
  match s with
  | EmptyString => EmptyString
  | String a s' =>
      if all_chars p s then EmptyString else String a (rstrip_by p s')
  end.

(** [s.strip()]. *)
Definition strip (s : string) : string :=
  rstrip_by is_space (lstrip_by is_space s).

(** [s.replace(a, b)] for one-character [a] and [b]. *)
Fixpoint replace (a b : ascii) (s : string) : string :=
  match s with
  | EmptyString => EmptyString
  | String c s' => String (if Ascii.eqb c a then b else c) (replace a b s')
  end.

(** The digits of a decimal literal after its first digit, [acc] being the
    value read so far: digits, single underscores between digits, then
    only blanks. *)
Fixpoint int_digits (acc : Z) (s : string) : option Z :=
  match s with
  | EmptyString => Some acc
  | String a s' =>
      match digit a with
      | Some d => int_digits (10 * acc + d) s'
      | None =>
          if Ascii.eqb a "_" then
            match s' with
            | String b s'' =>
                match digit b with
                | Some d => int_digits (10 * acc + d) s''
                | None => None
                end
            | EmptyString => None
            end
          else if all_chars is_int_space s then Some acc
          else None
      end
  end.

Definition int_unsigned (s : string) : option Z :=
  match s with
  | String a s' =>
      match digit a with
      | Some d => int_digits d s'
      | None => None
      end
  | EmptyString => None
  end.

(** [int(s)] in base ten. *)
Definition int (s : string) : result Z :=
  let r :=
    match lstrip_by is_int_space s with
    | String "+" s' => int_unsigned s'
    | String "-" s' => Z.opp <$> int_unsigned s'
    | s' => int_unsigned s'
    end in
  match r with
  | Some z => Ok z
  | None => Raise ValueError
  end.

End PyStr.

(** ** [get_year_from_arxiv_id] *)

(** The two-digit to four-digit rule of the [return]. *)
Definition century (yy : Z) : Z :=
  if 91 <=? yy then 1900 + yy else 2000 + yy.

(** The body of the [try]. *)
Definition year_of_id (arxiv_id : string) : result (option Z) :=
  if PyStr.contains "." arxiv_id then
    yymm <- PyStr.index (PyStr.split "." arxiv_id) 0 ;;
    yy <- PyStr.int (PyStr.slice_to 2 yymm) ;;
    Ok (Some (century yy))
  else if PyStr.contains "/" arxiv_id then
    field <- PyStr.index (PyStr.split "/" arxiv_id) 1 ;;
    let yymm := PyStr.slice_to 4 field in
    yy <- PyStr.int (PyStr.slice_to 2 yymm) ;;
    Ok (Some (century yy))
  else Ok None.

(** [except (ValueError, IndexError): return None]; anything else goes on. *)
Definition get_year_from_arxiv_id (arxiv_id : string) : result (option Z) :=
  match year_of_id arxiv_id with
  | Raise ValueError | Raise IndexError => Ok None
  | r => r
  end.

(** ** Decoded JSON values *)

(** What [json.loads] returns: [None], a [bool], a number (kept as its
    literal, the scripts never compute with one), a [str], a [list] or a
    [dict] with [str] keys. *)
Inductive json :=
| JNull
| JBool (b : bool)
| JNum (lit : string)
| JStr (s : string)
| JArr (l : list json)
| JObj (d : gmap string json).

(** [v == s] for a [str] [s]: only a [str] equals a [str]. *)
Definition eq_str (s : string) (v : json) : bool :=
  match v with
  | JStr t => String.eqb t s
  | _ => false
  end.

(** [s in v] for a [str] [s]: [None] stands for the [TypeError] of a value
    that is no container; a [str] container is handled by the caller. *)
Definition member (s : string) (v : json) : option bool :=
  match v with
  | JArr l => Some (existsb (eq_str s) l)
  | JObj d => Some (bool_decide (is_Some (d !! s)))
  | _ => None
  end.

(** [record[key]]. *)
Definition getitem (record : json) (key : string) : result json :=
  match record with
  | JObj d =>
      match d !! key with
      | Some v => Ok v
      | None => Raise KeyError
      end
  | _ => Raise TypeError
  end.

(** [record.get(key, fallback)]. *)
Definition dict_get (record : json) (key : string) (fallback : json)
  : result json :=
  match record with
  | JObj d => Ok (default fallback (d !! key))
  | _ => Raise AttributeError
  end.

(** [get_year_from_arxiv_id(v)] for whatever [record["id"]] holds: the
    annotation says [str], the call site passes the decoded value. On a
    [list] or [dict] the [in] tests succeed and [.split] is the
    [AttributeError]; on the other values [in] is the [TypeError]. Neither
    is caught by the [except]. *)
Definition get_year_of_value (v : json) : result (option Z) :=
  match v with
  | JStr s => get_year_from_arxiv_id s
  | _ =>
      match member "." v with
      | None => Raise TypeError
      | Some true => Raise AttributeError
      | Some false =>
          match member "/" v with
          | None => Raise TypeError
          | Some true => Raise AttributeError
          | Some false => Ok None
          end
      end
  end.

(** ** [load_papers] *)

(** The dict appended to [papers]. *)
Record Paper := {
  paper_id : json;
  paper_title : string;
  paper_abstract : string;
  paper_categories : json;
}.

(** [v.replace("\n", " ").strip()]. *)
Definition clean_text (v : json) : result string :=
  match v with
  | JStr s => Ok (PyStr.strip (PyStr.replace "010" " " s))
  | _ => Raise AttributeError
  end.

(** The dict display of lines 56-61, evaluated left to right. *)
Definition make_paper (record : json) : result Paper :=
  i <- getitem record "id" ;;
  t <- getitem record "title" ;;
  t' <- clean_text t ;;
  a <- getitem record "abstract" ;;
  a' <- clean_text a ;;
  c <- dict_get record "categories" (JStr "") ;;
  Ok {| paper_id := i; paper_title := t'; paper_abstract := a';
        paper_categories := c |}.

(** The year test of lines 52-55: [true] when the record goes on to be
    appended, [false] for [continue]. *)
Definition passes_year (min_year : option Z) (record : json) : result bool :=
  match min_year with
  | None => Ok true
  | Some m =>
      i <- getitem record "id" ;;
      paper_year <- get_year_of_value i ;;
      match paper_year with
      | None => Ok false
      | Some y => Ok (negb (y <? m))
      end
  end.

(** [limit is not None and len(papers) >= limit]. *)
Definition limit_reached (limit : option Z) (papers : list Paper) : bool :=
  match limit with
  | None => false
  | Some l => l <=? Z.of_nat (length papers)
  end.

Section Loader.

(** [json.loads] of the standard library: [None] is [JSONDecodeError]. *)
Variable json_loads : string -> option json.

(** One pass of the loop body after the limit test: [Ok None] is
    [continue], [Ok (Some p)] the paper appended. *)
Definition load_line (min_year : option Z) (line : string)
  : result (option Paper) :=
  match json_loads line with
  | None => Raise JSONDecodeError
  | Some record =>
      keep <- passes_year min_year record ;;
      if keep : bool then p <- make_paper record ;; Ok (Some p)
      else Ok None
  end.

(** The [for line in f] loop. [papers] is the list built so far and [n]
    the number of lines handed to [json.loads] so far; both are returned,
    the count also when the loop is left by an exception. *)
Fixpoint load_loop (limit min_year : option Z) (lines : list string)
    (papers : list Paper) (n : nat) : nat * result (list Paper) :=
  match lines with
  | [] => (n, Ok papers)
  | line :: rest =>
      if limit_reached limit papers then (n, Ok papers)
      else
        match load_line min_year line with
        | Raise e => (S n, Raise e)
        | Ok None => load_loop limit min_year rest papers (S n)
        | Ok (Some p) =>
            load_loop limit min_year rest (papers ++ [p]) (S n)
        end
  end.

(** [load_papers(filepath, limit, min_year)], [files] giving the lines of
    the files that can be opened. *)
Definition load_papers (files : gmap string (list string))
    (filepath : string) (limit min_year : option Z)
  : result (list Paper) :=
  match files !! filepath with
  | None => Raise OSError
  | Some lines => snd (load_loop limit min_year lines [] 0)
  end.

(** How many lines the same call decodes. *)
Definition lines_decoded (files : gmap string (list string))
    (filepath : string) (limit min_year : option Z) : nat :=
  match files !! filepath with
  | None => O
  | Some lines => fst (load_loop limit min_year lines [] 0)
  end.

End Loader.

(** ** The vector store

    [chromadb] is a library, not part of the repository: the scripts only
    call it. What follows is those calls as the library documents them, as
    far as the scripts depend on them. A collection is kept as the list of
    its items in insertion order. Where the releases of the library differ
    in what the scripts depend on, the model takes the behaviour as a
    parameter. The collection's own metadata is left out. *)

(** The metadata dict of line 143. *)
Record Metadata := {
  meta_title : string;
  meta_categories : json;
}.

(** What [Collection.add] does with an id that is already stored: the
    current releases leave the stored item as it is and go on, the early
    ones raise. Neither overwrites; that is [Collection.upsert], which the
    script does not call. *)
Inductive on_existing :=
| SkipExisting
| RejectExisting.

(** What [client.delete_collection] raises for a collection that does not
    exist: a [ValueError] before release 1.0, the library's own
    [NotFoundError], which is no [ValueError], from then on. *)
Inductive on_missing :=
| MissingValueError
| MissingNotFound.

(** The behaviour of the installed release: what [add] does with a stored
    id, what deleting a missing collection raises, and which metadata
    dicts [add] accepts (the value types it allows have changed between
    releases). *)
Record store_policy := {
  existing : on_existing;
  missing : on_missing;
  accepts : Metadata -> bool;
}.

Definition missing_error (policy : store_policy) : exn :=
  match missing policy with
  | MissingValueError => ValueError
  | MissingNotFound => NotFoundError
  end.

(** The calls the scripts make into the library, as they are logged. *)
Inductive call :=
| CallDelete (name : string)
| CallGetOrCreate (name : string)
| CallAdd (name : string) (ids : list json) (documents : list string)
          (metadatas : list Metadata)
| CallCount (name : string)
| CallQuery (name : string) (query_texts : list string) (n_results : Z).

Definition MODEL_NAME : string := "all-MiniLM-L6-v2".
Definition COLLECTION : string := "arxiv_papers".
Definition BATCH_SIZE : nat := 100.

Section Store.

(** The embedding model: vectors and the function computing one from a
    text. *)
Variable Embedding : Type.
Variable embed : string -> Embedding.

Variable policy : store_policy.

Record Item := {
  item_id : string;
  item_embedding : Embedding;
  item_document : string;
  item_metadata : Metadata;
}.

Definition ids_of (col : list Item) : list string := item_id <$> col.

Record World := {
  files : gmap string (list string);
  collections : gmap string (list Item);
  calls : list call;
  stdout : list string;
}.

(** Computations of the scripts: they change the world and return or
    raise. *)
Definition M (A : Type) : Type := World -> World * result A.

Definition ret {A} (a : A) : M A := fun w => (w, Ok a).

Definition throw {A} (e : exn) : M A := fun w => (w, Raise e).

Definition bind {A B} (m : M A) (k : A -> M B) : M B :=
  fun w =>
    match m w with
    | (w', Ok a) => k a w'
    | (w', Raise e) => (w', Raise e)
    end.

Definition lift {A} (r : result A) : M A := fun w => (w, r).

Local Notation "'run' x <~ m ;; k" := (bind m (fun x => k))
  (at level 10, x name, m at level 99, k at level 200).

(** [try: body except E: handler], [handles] telling the exceptions [E]
    covers. *)
Definition try_except {A} (body : M A) (handles : exn -> bool)
    (handler : M A) : M A :=
  fun w =>
    match body w with
    | (w', Raise e) => if handles e then handler w' else (w', Raise e)
    | r => r
    end.

Definition print (line : string) : M unit :=
  fun w =>
    ({| files := files w; collections := collections w; calls := calls w;
        stdout := stdout w ++ [line] |}, Ok tt).

Definition log (c : call) (w : World) : World :=
  {| files := files w; collections := collections w;
     calls := calls w ++ [c]; stdout := stdout w |}.

Definition set_collections (cs : gmap string (list Item)) (w : World)
  : World :=
  {| files := files w; collections := cs; calls := calls w;
     stdout := stdout w |}.

(** [client.delete_collection(name)]. *)
Definition delete_collection (name : string) : M unit :=
  fun w =>
    let w := log (CallDelete name) w in
    match collections w !! name with
    | Some _ => (set_collections (delete name (collections w)) w, Ok tt)
    | None => (w, Raise (missing_error policy))
    end.

(** [client.get_or_create_collection(name, ...)]; the handle returned is
    the collection's name. *)
Definition get_or_create_collection (name : string) : M string :=
  fun w =>
    let w := log (CallGetOrCreate name) w in
    match collections w !! name with
    | Some _ => (w, Ok name)
    | None => (set_collections (<[name := []]> (collections w)) w, Ok name)
    end.

Definition str_id (v : json) : option string :=
  match v with
  | JStr s => Some s
  | _ => None
  end.

Definition make_item (i : string) (document : string) (m : Metadata)
  : Item :=
  {| item_id := i; item_embedding := embed document;
     item_document := document; item_metadata := m |}.

Fixpoint make_items (ids : list string) (documents : list string)
    (metadatas : list Metadata) : list Item :=
  match ids, documents, metadatas with
  | i :: ids', d :: documents', m :: metadatas' =>
      make_item i d m :: make_items ids' documents' metadatas'
  | _, _, _ => []
  end.

Definition stored (col : list Item) (i : string) : bool :=
  bool_decide (i ∈ ids_of col).

(** [Collection.add] on the items of a collection: ids are [str]s and
    differ within one call, and every metadata dict is one the release
    accepts, or the call raises before anything is stored; an id already
    stored is treated as the release does. *)
Definition add_items (ids : list json) (documents : list string)
    (metadatas : list Metadata) (col : list Item) : result (list Item) :=
  match mapM str_id ids with
  | None => Raise ValueError
  | Some sids =>
      if bool_decide (NoDup sids) then
        if forallb (accepts policy) metadatas then
          let new := make_items sids documents metadatas in
          match existing policy with
          | SkipExisting =>
              Ok (col ++ filter (fun it => stored col (item_id it) = false)
                                new)
          | RejectExisting =>
              if existsb (stored col) sids then Raise IDAlreadyExistsError
              else Ok (col ++ new)
          end
        else Raise ValueError
      else Raise DuplicateIDError
  end.

(** [collection.add(documents=, ids=, metadatas=)]. *)
Definition collection_add (name : string) (documents : list string)
    (ids : list json) (metadatas : list Metadata) : M unit :=
  fun w =>
    let w := log (CallAdd name ids documents metadatas) w in
    match collections w !! name with
    | None => (w, Raise StoreError)
    | Some col =>
        match add_items ids documents metadatas col with
        | Ok col' =>
            (set_collections (<[name := col']> (collections w)) w, Ok tt)
        | Raise e => (w, Raise e)
        end
    end.

(** [collection.count()]. *)
Definition collection_count (name : string) : M nat :=
  fun w =>
    let w := log (CallCount name) w in
    match collections w !! name with
    | None => (w, Raise StoreError)
    | Some col => (w, Ok (length col))
    end.

(** ** The ingestion script's [main] *)

(** The namespace [parse_args] returns. *)
Record Args := {
  limit : Z;
  clean : bool;
  year : option Z;
}.

(** [range(start, stop, step)] for a positive [step]. *)
Definition py_range (start stop step : nat) : list nat :=
  (fun k => start + k * step)%nat
    <$> seq 0 ((stop - start + step - 1) / step)%nat.

(** [l[i:j]] for [0 <= i <= j]. *)
Definition slice {A} (i j : nat) (l : list A) : list A :=
  take (j - i) (drop i l).

(** The batches the loop of line 139 walks through. *)
Definition batches (papers : list Paper) : list (list Paper) :=
  (fun i => slice i (i + BATCH_SIZE) papers)
    <$> py_range 0 (length papers) BATCH_SIZE.

Definition embedding_text (p : Paper) : string :=
  paper_title p +:+ " " +:+ paper_abstract p.

Definition metadata_of (p : Paper) : Metadata :=
  {| meta_title := paper_title p; meta_categories := paper_categories p |}.

(** The body of the batch loop, lines 140-149. *)
Definition add_batch (collection : string) (batch : list Paper) : M unit :=
  collection_add collection
    (embedding_text <$> batch) (paper_id <$> batch) (metadata_of <$> batch).

(** [for x in xs: body(x)]. *)
Fixpoint for_each {A} (xs : list A) (body : A -> M unit) : M unit :=
  match xs with
  | [] => ret tt
  | x :: xs' => run _ <~ body x ;; for_each xs' body
  end.

(** [str(n)] of an [int]. *)
Definition str_int (n : Z) : string := pretty n.

(** Truth of an [int] holding option: [None] and [0] are false. *)
Definition truthy (o : option Z) : bool :=
  match o with
  | Some n => negb (n =? 0)
  | None => false
  end.

(** Lines 99-104. *)
Definition print_summary (args : Args) : M unit :=
  run _ <~ print "arXiv Embeddings Generator" ;;
  run _ <~ print ("Using model " +:+ MODEL_NAME) ;;
  run _ <~ print ("  --limit: " +:+
              (if 0 <? limit args then str_int (limit args) else "all")) ;;
  run _ <~ print ("  --year: " +:+
              (if truthy (year args) then str_int (default 0 (year args))
               else "any")) ;;
  run _ <~ print ("  --clean: "
                  +:+ (if clean args then "True" else "False")) ;;
  print "".

(** Lines 115-120. *)
Definition clean_collection (args : Args) : M unit :=
  if clean args then
    try_except
      (run _ <~ delete_collection COLLECTION ;;
       print "Deleted existing collection 'arxiv_papers'")
      (fun e => match e with ValueError => true | _ => false end)
      (print "No existing collection to delete")
  else ret tt.

(** Line 122. *)
Definition effective_limit (args : Args) : option Z :=
  if 0 <? limit args then Some (limit args) else None.

(** [json.loads] and the path the script reads. *)
Variable json_loads : string -> option json.
Variable DATA_FILE : string.

(** Lines 122-128. *)
Definition read_papers (args : Args) : M (list Paper) :=
  let limit := effective_limit args in
  let limit_str := if truthy limit then str_int (default 0 limit)
                   else "all" in
  let year_str := if truthy (year args)
                  then " from " +:+ str_int (default 0 (year args))
                       +:+ " onwards"
                  else "" in
  run _ <~ print ("Reading " +:+ limit_str +:+ " papers" +:+ year_str
              +:+ " from " +:+ DATA_FILE +:+ "...") ;;
  run papers <~ (fun w => lift (load_papers json_loads (files w) DATA_FILE
                                        limit (year args)) w) ;;
  run _ <~ print ("Read " +:+ pretty (length papers) +:+ " papers") ;;
  ret papers.

(** Lines 131-152. *)
Definition ingest (papers : list Paper) : M unit :=
  run collection <~ get_or_create_collection COLLECTION ;;
  run _ <~ print "Generating embeddings..." ;;
  run _ <~ for_each (batches papers) (add_batch collection) ;;
  run _ <~ print (String "010" "Successfully embedded "
              +:+ pretty (length papers) +:+ " papers") ;;
  run n <~ collection_count collection ;;
  print ("Collection count: " +:+ pretty n).

(** [main()] after [parse_args]. The progress bar goes to the standard
    error stream and is left out. *)
Definition main (args : Args) : M unit :=
  run _ <~ print_summary args ;;
  run _ <~ clean_collection args ;;
  run papers <~ read_papers args ;;
  ingest papers.

End Store.

Arguments item_id {Embedding} _.
Arguments item_embedding {Embedding} _.
Arguments item_document {Embedding} _.
Arguments item_metadata {Embedding} _.
Arguments ids_of {Embedding} col.
Arguments files {Embedding} _.
Arguments collections {Embedding} _.
Arguments calls {Embedding} _.
Arguments stdout {Embedding} _.
Arguments ret {Embedding A} a _.
Arguments throw {Embedding A} e _.
Arguments bind {Embedding A B} m k _.
Arguments lift {Embedding A} r _.
Arguments try_except {Embedding A} body handles handler _.
Arguments print {Embedding} line _.
Arguments log {Embedding} c w.
Arguments set_collections {Embedding} cs w.
Arguments delete_collection {Embedding} policy name _.
Arguments get_or_create_collection {Embedding} name _.
Arguments make_item {Embedding} embed i document m.
Arguments make_items {Embedding} embed ids documents metadatas.
Arguments stored {Embedding} col i.
Arguments add_items {Embedding} embed policy ids documents metadatas col.
Arguments collection_add {Embedding} embed policy name documents ids
  metadatas _.
Arguments collection_count {Embedding} name _.
Arguments add_batch {Embedding} embed policy collection batch _.
Arguments for_each {Embedding A} xs body _.
Arguments print_summary {Embedding} args _.
Arguments clean_collection {Embedding} policy args _.
Arguments read_papers {Embedding} json_loads DATA_FILE args _.
Arguments ingest {Embedding} embed policy papers _.
Arguments main {Embedding} embed policy json_loads DATA_FILE args _.

(** ** The query service, [backend/api.py] *)

(** [SearchRequest]: [query] and [n_results]. *)
Record SearchRequest := {
  req_query : string;
  req_n_results : Z;
}.

(** The request built from a body in which [n_results] may be absent. *)
Definition parse_request (query : string) (n_results : option Z)
  : SearchRequest :=
  {| req_query := query; req_n_results := default 10 n_results |}.

Section Api.

Variable Embedding : Type.

(** Distances are floating point numbers the service only passes on. *)
Variable Distance : Type.

(** What [collection.query] returns: one row per query text. *)
Record QueryResult := {
  res_ids : list (list string);
  res_metadatas : list (list Metadata);
  res_distances : list (list Distance);
}.

(** The library's nearest-neighbour search over the items of a
    collection; [None] when it raises. *)
Variable nearest :
  list (Item Embedding) -> list string -> Z -> option QueryResult.

Record SearchResult := {
  sr_id : string;
  sr_title : string;
  sr_categories : string;
  sr_distance : Distance;
}.

Record SearchResponse := {
  results : list SearchResult;
}.

Local Notation "'run' x <~ m ;; k" := (bind m (fun x => k))
  (at level 10, x name, m at level 99, k at level 200).

(** [collection.query(query_texts=, n_results=)]. *)
Definition collection_query (name : string) (query_texts : list string)
    (n_results : Z) : M Embedding QueryResult :=
  fun w =>
    let w := log (CallQuery name query_texts n_results) w in
    match collections w !! name with
    | None => (w, Raise StoreError)
    | Some col =>
        match nearest col query_texts n_results with
        | Some r => (w, Ok r)
        | None => (w, Raise StoreError)
        end
    end.

(** The [SearchResult(...)] of lines 70-75 for position [i]: the
    arguments are evaluated in order, then the model validates that
    [categories] is a [str]. *)
Definition search_result (r : QueryResult) (i : nat) (doc_id : string)
  : result SearchResult :=
  ms <- PyStr.index (res_metadatas r) 0 ;;
  m <- PyStr.index ms i ;;
  ms' <- PyStr.index (res_metadatas r) 0 ;;
  m' <- PyStr.index ms' i ;;
  ds <- PyStr.index (res_distances r) 0 ;;
  d <- PyStr.index ds i ;;
  match meta_categories m' with
  | JStr c =>
      Ok {| sr_id := doc_id; sr_title := meta_title m; sr_categories := c;
            sr_distance := d |}
  | _ => Raise ValidationError
  end.

(** The loop of lines 69-75 from position [i] on. *)
Fixpoint search_results (r : QueryResult) (i : nat) (ids : list string)
  : result (list SearchResult) :=
  match ids with
  | [] => Ok []
  | doc_id :: ids' =>
      x <- search_result r i doc_id ;;
      xs <- search_results r (S i) ids' ;;
      Ok (x :: xs)
  end.

(** [search_papers(request)]. *)
Definition search_papers (request : SearchRequest)
  : M Embedding SearchResponse :=
  if (req_n_results request <? 1) || (100 <? req_n_results request) then
    throw (HTTPException 400 "n_results must be between 1 and 100")
  else
    run r <~ collection_query COLLECTION [req_query request]
                              (req_n_results request) ;;
    lift
      (ids <- PyStr.index (res_ids r) 0 ;;
       xs <- search_results r 0 ids ;;
       Ok {| results := xs |}).

(** [health_check()]: the status and the collection count. *)
Definition health_check : M Embedding (string * nat) :=
  run n <~ collection_count COLLECTION ;;
  ret ("healthy", n).

End Api.

Arguments res_ids {Distance} _.
Arguments res_metadatas {Distance} _.
Arguments res_distances {Distance} _.
Arguments sr_id {Distance} _.
Arguments sr_title {Distance} _.
Arguments sr_categories {Distance} _.
Arguments sr_distance {Distance} _.
Arguments results {Distance} _.
Arguments collection_query {Embedding Distance} nearest name query_texts
  n_results _.
Arguments search_result {Distance} r i doc_id.
Arguments search_results {Distance} r i ids.
Arguments search_papers {Embedding Distance} nearest request _.
Arguments health_check {Embedding} _.

(** ** Vocabulary of the statements *)

(** The papers a sequence of lines contributes when every line is taken on
    its own: the lines whose pass through the loop body appends one. *)
Definition qualifying (json_loads : string -> option json)
    (min_year : option Z) (lines : list string) : list Paper :=
  omap (fun line =>
          match load_line json_loads min_year line with
          | Ok r => r
          | Raise _ => None
          end) lines.

(** A line the loop body gets through without raising. *)
Definition line_ok (json_loads : string -> option json)
    (min_year : option Z) (line : string) : Prop :=
  exists r, load_line json_loads min_year line = Ok r.

(** A record of the input file format: a dict holding [str]s under
    ["id"], ["title"] and ["abstract"], and whatever else. *)
Definition complete_record (v : json) : Prop :=
  exists d i t a,
    v = JObj d /\ d !! "id" = Some (JStr i) /\ d !! "title" = Some (JStr t)
    /\ d !! "abstract" = Some (JStr a).

(** A line that decodes to such a record. *)
Definition well_formed (json_loads : string -> option json) (line : string)
  : Prop :=
  exists v, json_loads line = Some v /\ complete_record v.

(** No two items of any collection share an id. *)
Definition unique_ids {Embedding} (w : World Embedding) : Prop :=
  forall name col, collections w !! name = Some col -> NoDup (ids_of col).

(** What every step of the scripts keeps: the files stay, the log of
    calls is only appended to, and ids stay unique if they were. *)
Definition evolves {Embedding} (w w' : World Embedding) : Prop :=
  files w' = files w
  /\ (exists cs, calls w' = calls w ++ cs)
  /\ (unique_ids w -> unique_ids w').

(** What every step but [delete_collection] keeps: each collection keeps
    its items, in place, and may gain items after them. *)
Definition grows {Embedding} (w w' : World Embedding) : Prop :=
  forall name col,
    collections w !! name = Some col ->
    exists new, collections w' !! name = Some (col ++ new).

(** A computation whose every run relates the world it starts in to the
    world it leaves. *)
Definition preserves {Embedding A}
    (R : World Embedding -> World Embedding -> Prop) (m : M Embedding A)
  : Prop :=
  forall w, R w (fst (m w)).

(** Whether the cleaning of lines 115-120 ends the run: the flag is set,
    the collection is missing, and what the store raises for that is no
    [ValueError]. *)
Definition clean_raises {Embedding} (policy : store_policy) (args : Args)
    (w : World Embedding) : bool :=
  clean args
  && bool_decide (collections w !! COLLECTION = None)
  && match missing policy with
     | MissingNotFound => true
     | MissingValueError => false
     end.

(** The errors of the service other than the one it raises itself. *)
Definition not_http (e : exn) : Prop :=
  match e with
  | HTTPException _ _ => False
  | _ => True
  end.

(** The item stored under an id, the first one in insertion order. *)
Definition item_of {Embedding} (col : list (Item Embedding)) (i : string)
  : option (Item Embedding) :=
  find (fun it => bool_decide (item_id it = i)) col.

(** The world with the data file replaced by [lines]. *)
Definition with_file {Embedding} (path : string) (lines : list string)
    (w : World Embedding) : World Embedding :=
  {| files := <[path := lines]> (files w); collections := collections w;
     calls := calls w; stdout := stdout w |}.

(** A sequence of runs of the script, each on its own arguments and
    contents of the data file; a run that raises leaves the world it
    reached. *)
Fixpoint ingestion_runs {Embedding} (embed : string -> Embedding)
    (policy : store_policy) (json_loads : string -> option json)
    (DATA_FILE : string) (runs : list (Args * list string))
    (w : World Embedding) : World Embedding :=
  match runs with
  | [] => w
  | (args, lines) :: runs' =>
      ingestion_runs embed policy json_loads DATA_FILE runs'
        (fst (main embed policy json_loads DATA_FILE args
                   (with_file DATA_FILE lines w)))
  end.

(** The [CallAdd] the loop body logs for a batch. *)
Definition add_call (collection : string) (batch : list Paper) : call :=
  CallAdd collection (paper_id <$> batch) (embedding_text <$> batch)
          (metadata_of <$> batch).

(** ** Sample data *)

Module Sample.

Definition fields (i title abstract : string) : gmap string json :=
  <["id" := JStr i]> (<["title" := JStr title]>
    (<["abstract" := JStr abstract]> ∅)).

Definition record (i title abstract : string) : json :=
  JObj (fields i title abstract).

Definition quantum : json :=
  record "0704.0001" "Quantum walks" "We study walks.".
Definition quantum_revised : json :=
  record "0704.0001" "Quantum walks, revised" "We study more walks.".
Definition strings : json :=
  record "hep-th/9901001" "String theory" "Strings.".
Definition graphs : json :=
  record "1501.00002" "Graph minors" "Minors.".
Definition unknown : json :=
  record "preprint-17" "An unnumbered note" "No year.".

(** A decoder for the sample lines, which are named rather than spelled
    out; every other line is malformed. *)
Definition json_loads (line : string) : option json :=
  if String.eqb line "quantum" then Some quantum
  else if String.eqb line "quantum_revised" then Some quantum_revised
  else if String.eqb line "strings" then Some strings
  else if String.eqb line "graphs" then Some graphs
  else if String.eqb line "unknown" then Some unknown
  else None.

Definition DATA_FILE : string := "arxiv-metadata-oai-snapshot.json".

(** The embedding is immaterial here: the text stands for its vector. *)
Definition embed (text : string) : string := text.

Definition data (lines : list string) : gmap string (list string) :=
  {[DATA_FILE := lines]}.

(** A world with the data file and an empty store. *)
Definition fresh (lines : list string) : World string :=
  {| files := data lines; collections := ∅; calls := []; stdout := [] |}.

Definition args (l : Z) (c : bool) (y : option Z) : Args :=
  {| limit := l; clean := c; year := y |}.

(** Metadata a release accepts: values that are a [str], a number or a
    [bool]. *)
Definition scalar_values (m : Metadata) : bool :=
  match meta_categories m with
  | JStr _ | JNum _ | JBool _ => true
  | _ => false
  end.

Definition store (e : on_existing) (m : on_missing) : store_policy :=
  {| existing := e; missing := m; accepts := scalar_values |}.

(** A release before 1.0 and a current one. *)
Definition early : store_policy := store SkipExisting MissingValueError.
Definition current : store_policy := store SkipExisting MissingNotFound.

Definition run (policy : store_policy) (a : Args) (w : World string)
  : World string * result unit :=
  main embed policy json_loads DATA_FILE a w.

End Sample.

(** ** Vocabulary of the further statements *)

(** The item [add] makes for a paper whose id is a [str]. *)
Definition paper_item {Embedding} (embed : string -> Embedding) (p : Paper)
  : option (Item Embedding) :=
  match str_id (paper_id p) with
  | Some s => Some (make_item embed s (embedding_text p) (metadata_of p))
  | None => None
  end.

Definition paper_items {Embedding} (embed : string -> Embedding)
    (papers : list Paper) : list (Item Embedding) :=
  omap (paper_item embed) papers.

(** Papers whose ids are all [str]s. *)
Definition string_ids (papers : list Paper) : Prop :=
  Forall (fun p => is_Some (str_id (paper_id p))) papers.

(** Papers whose metadata dicts the release accepts. *)
Definition accepted (policy : store_policy) (papers : list Paper) : bool :=
  forallb (fun p => accepts policy (metadata_of p)) papers.

(** What a run of the ingestion script keeps to: the files stay, every
    collection but [arxiv_papers] stays, and the output is only added
    to. *)
Definition confined {Embedding} (w w' : World Embedding) : Prop :=
  files w' = files w
  /\ (forall name, name <> COLLECTION ->
        collections w' !! name = collections w !! name)
  /\ exists out, stdout w' = stdout w ++ out.

(** ** The service's configuration *)

(** [os.getenv(name, fallback)], given the variable's value when it is
    set. *)
Definition getenv (value : option string) (fallback : string) : string :=
  default fallback value.

(** Line 14 of [api.py]: the allowed origins, from [CORS_ORIGINS]. *)
Definition cors_origins (CORS_ORIGINS : option string) : list string :=
  PyStr.split "," (getenv CORS_ORIGINS "http://localhost:5173").

(** [c.join(l)], to say what a list of origins is written as. *)
Fixpoint join (c : ascii) (l : list string) : string :=
  match l with
  | [] => EmptyString
  | [s] => s
  | s :: l' => s +:+ String c (join c l')
  end.

(** ** More sample data *)

Module Cases.

(** A record whose texts need cleaning. *)
Definition messy : json :=
  Sample.record "1501.00003" (" Deep" +:+ String "010" "learning  ")
                (String "010" "Nets.").

(** Lines that decode to something other than a complete record. *)
Definition no_title : json := JObj (<["id" := JStr "0704.0002"]> ∅).
Definition array : json := JArr [].
Definition numeric_id_fields : gmap string json :=
  <["id" := JNum "17"]> (<["title" := JStr "Seventeen"]>
    (<["abstract" := JStr "A number."]> ∅)).
Definition numeric_id : json := JObj numeric_id_fields.

Definition json_loads (line : string) : option json :=
  if String.eqb line "messy" then Some messy
  else if String.eqb line "no_title" then Some no_title
  else if String.eqb line "array" then Some array
  else if String.eqb line "numeric_id" then Some numeric_id
  else Sample.json_loads line.

(** A stand-in for the store's search: the first [n] items in insertion
    order, each at a distance that is its position. *)
Definition nearest (col : list (Item string)) (query_texts : list string)
    (n : Z) : option (QueryResult Z) :=
  Some {| res_ids := [take (Z.to_nat n) (ids_of col)];
          res_metadatas := [take (Z.to_nat n) (item_metadata <$> col)];
          res_distances :=
            [take (Z.to_nat n) (Z.of_nat <$> seq 0 (length col))] |}.

(** The world after a first run over two papers. *)
Definition ingested : World string :=
  fst (Sample.run Sample.early (Sample.args 0 false None)
                  (Sample.fresh ["quantum"; "graphs"])).

Definition two_papers : list Paper :=
  [{| paper_id := JStr "0704.0001"; paper_title := "Quantum walks";
      paper_abstract := "We study walks."; paper_categories := JStr "" |};
   {| paper_id := JStr "1501.00002"; paper_title := "Graph minors";
      paper_abstract := "Minors."; paper_categories := JStr "" |}].

End Cases.

(** * Properties *)

(** ** Identifiers and years *)

Section Years.

Import PyStr.

Lemma digit_plain a d :
  digit a = Some d ->
  is_int_space a = false /\ Ascii.eqb a "." = false
  /\ Ascii.eqb a "/" = false /\ Ascii.eqb a "+" = false
  /\ Ascii.eqb a "-" = false /\ 0 <= d <= 9.
Proof.
  destruct a as [[] [] [] [] [] [] [] []]; vm_compute; intros H;
    try discriminate H; inversion H; repeat split; discriminate.
Qed.

Lemma lstrip_by_keep p a s : p a = false -> lstrip_by p (String a s) = String a s.
Proof. intros H. cbn. by rewrite H. Qed.

Lemma int_unsigned_two_digits y1 y2 d1 d2 :
  digit y1 = Some d1 -> digit y2 = Some d2 ->
  int_unsigned (String y1 (String y2 EmptyString)) = Some (10 * d1 + d2).
Proof. intros H1 H2. unfold int_unsigned. rewrite H1. cbn. by rewrite H2. Qed.

Lemma int_two_digits y1 y2 d1 d2 :
  digit y1 = Some d1 -> digit y2 = Some d2 ->
  int (String y1 (String y2 EmptyString)) = Ok (10 * d1 + d2).
Proof.
  intros H1 H2. unfold int.
  rewrite lstrip_by_keep by apply (digit_plain _ _ H1).
  pose proof (int_unsigned_two_digits _ _ _ _ H1 H2) as E.
  destruct y1 as [[] [] [] [] [] [] [] []]; try discriminate H1;
    cbv beta iota; by rewrite E.
Qed.

Lemma append_nil s : EmptyString +:+ s = s.
Proof. reflexivity. Qed.

Lemma append_cons a s1 s2 : String a s1 +:+ s2 = String a (s1 +:+ s2).
Proof. reflexivity. Qed.

Lemma contains_app c s1 s2 :
  contains c (s1 +:+ s2) = contains c s1 || contains c s2.
Proof.
  induction s1 as [|a s1 IH]; [done|].
  rewrite append_cons. cbn. destruct (Ascii.eqb a c); [done|apply IH].
Qed.

Lemma split_cons c s : exists f fs, split c s = f :: fs.
Proof.
  destruct s as [|a s]; cbn; [by eexists _, _|].
  destruct (Ascii.eqb a c); [by eexists _, _|].
  destruct (split c s); by eexists _, _.
Qed.

Lemma split_app_sep c s1 s2 :
  contains c s1 = false ->
  split c (s1 +:+ String c s2) = s1 :: split c s2.
Proof.
  induction s1 as [|a s1 IH].
  - intros _. rewrite append_nil. cbn. by rewrite Ascii.eqb_refl.
  - rewrite append_cons. cbn. destruct (Ascii.eqb a c); [done|].
    intros H. by rewrite IH.
Qed.

(** An identifier that starts with two digits and holds a dot resolves by
    the century rule: the new form [YYMM.NNNNN] and more. *)
Lemma year_new_form y1 y2 d1 d2 rest :
  digit y1 = Some d1 -> digit y2 = Some d2 -> contains "." rest = true ->
  get_year_from_arxiv_id (String y1 (String y2 rest))
  = Ok (Some (century (10 * d1 + d2))).
Proof.
  intros H1 H2 Hdot.
  destruct (digit_plain _ _ H1) as (_ & E1 & _).
  destruct (digit_plain _ _ H2) as (_ & E2 & _).
  unfold get_year_from_arxiv_id, year_of_id.
  cbn [contains split]. rewrite E1, E2, Hdot.
  destruct (split_cons "." rest) as (f & fs & ->).
  cbn [index lookup list_lookup rbind slice_to].
  change (slice_to 0 f) with EmptyString.
  by rewrite (int_two_digits _ _ _ _ H1 H2).
Qed.

(** An identifier [category/YY...] resolves by the same rule when neither
    the category nor what follows holds a dot. *)
Lemma year_old_form category y1 y2 d1 d2 rest :
  contains "." category = false -> contains "/" category = false ->
  digit y1 = Some d1 -> digit y2 = Some d2 -> contains "." rest = false ->
  get_year_from_arxiv_id
    (category +:+ String "/" (String y1 (String y2 rest)))
  = Ok (Some (century (10 * d1 + d2))).
Proof.
  intros Hc1 Hc2 H1 H2 Hdot.
  destruct (digit_plain _ _ H1) as (_ & E1 & F1 & _).
  destruct (digit_plain _ _ H2) as (_ & E2 & F2 & _).
  unfold get_year_from_arxiv_id, year_of_id.
  rewrite !contains_app, Hc1, Hc2. cbn [contains orb].
  rewrite E1, E2, Hdot. cbn [Ascii.eqb Bool.eqb].
  rewrite split_app_sep by done. cbn [split]. rewrite F1, F2.
  destruct (split_cons "/" rest) as (f & fs & ->).
  cbn [index lookup list_lookup rbind slice_to].
  change (slice_to 0 f) with EmptyString.
  by rewrite (int_two_digits _ _ _ _ H1 H2).
Qed.

Example year_2301 : get_year_from_arxiv_id "2301.12345" = Ok (Some 2023).
Proof. reflexivity. Qed.

Example year_9901 : get_year_from_arxiv_id "9901.00001" = Ok (Some 1999).
Proof. reflexivity. Qed.

Example year_hep_th :
  get_year_from_arxiv_id "hep-th/9901001" = Ok (Some 1999).
Proof. reflexivity. Qed.

(** C2. The year of an old-form identifier is meant to come from the two
    digits after the slash. For a category with a subject class, such as
    [math.AG], the dot sends the identifier down the new-form branch,
    which reads ["ma"] as the year and gives up: no year is derived. *)
Theorem year_dotted_category :
  get_year_from_arxiv_id "math.AG/9901001" = Ok None
  /\ get_year_from_arxiv_id "math/9901001" = Ok (Some 1999).
Proof. split; reflexivity. Qed.

End Years.

(** ** The loader *)

Section LoaderFacts.

Variable json_loads : string -> option json.

(** On a [str] the function returns: whatever [int] and the indexing
    raise is caught. *)
Lemma get_year_returns s : exists oy, get_year_from_arxiv_id s = Ok oy.
Proof.
  unfold get_year_from_arxiv_id, year_of_id, PyStr.index, PyStr.int.
  destruct (PyStr.contains "." s).
  - destruct (split_cons "." s) as (f & fs & ->). cbn.
    repeat case_match; simplify_eq/=; eauto.
  - destruct (PyStr.contains "/" s); [|eauto].
    destruct (PyStr.split "/" s !! 1%nat); cbn; [|eauto].
    repeat case_match; simplify_eq/=; eauto.
Qed.

(** Only a [str] identifier yields a year. *)
Lemma get_year_of_value_some v y :
  get_year_of_value v = Ok (Some y) ->
  exists s, v = JStr s /\ get_year_from_arxiv_id s = Ok (Some y).
Proof.
  destruct v; cbn; intros H; try discriminate H; eauto;
    repeat case_match; discriminate.
Qed.

Lemma make_paper_id record p :
  make_paper record = Ok p -> getitem record "id" = Ok (paper_id p).
Proof.
  unfold make_paper. intros H.
  destruct (getitem record "id") as [i|]; [|done]. cbn in H.
  repeat (match type of H with
          | rbind ?r _ = _ => destruct r; [|done]; cbn in H
          end).
  by simplify_eq/=.
Qed.

(** A paper appended under a year filter has an identifier that resolves
    to a year not below the minimum. *)
Lemma load_line_year m line p :
  load_line json_loads (Some m) line = Ok (Some p) ->
  exists s y, paper_id p = JStr s
              /\ get_year_from_arxiv_id s = Ok (Some y) /\ m <= y.
Proof.
  unfold load_line. destruct (json_loads line) as [record|]; [|done].
  unfold passes_year.
  destruct (getitem record "id") as [i|] eqn:Hi; [|done]. cbn.
  destruct (get_year_of_value i) as [[y|]|] eqn:Hy; cbn; try done.
  destruct (y <? m) eqn:Hlt; cbn; [done|].
  destruct (make_paper record) as [q|] eqn:Hq; cbn; [|done].
  intros ?; simplify_eq. apply make_paper_id in Hq. rewrite Hi in Hq.
  simplify_eq. apply get_year_of_value_some in Hy as (s & -> & Hs).
  exists s, y. repeat split; [done..|]. lia.
Qed.

(** The loop returns the papers it was given followed by papers appended
    for lines of the file, in the order of the file. *)
Lemma load_loop_origin limit min_year lines acc n n' papers :
  load_loop json_loads limit min_year lines acc n = (n', Ok papers) ->
  exists new, papers = acc ++ new
    /\ Forall (fun p => exists line,
                 line ∈ lines /\ load_line json_loads min_year line = Ok (Some p)) new.
Proof.
  revert acc n. induction lines as [|line lines IH]; intros acc n; cbn.
  - intros ?; simplify_eq. exists []. by rewrite app_nil_r.
  - destruct (limit_reached limit acc).
    { intros ?; simplify_eq. exists []. by rewrite app_nil_r. }
    destruct (load_line json_loads min_year line) as [[p|]|] eqn:Hl; [| |done].
    + intros (new & -> & Hnew)%IH. exists (p :: new).
      rewrite <- app_assoc. split; [done|]. constructor.
      * exists line. split; [left|done].
      * eapply Forall_impl; [exact Hnew|]. intros q (l & ? & ?).
        exists l. split; [by right|done].
    + intros (new & -> & Hnew)%IH. exists new. split; [done|].
      eapply Forall_impl; [exact Hnew|]. intros q (l & ? & ?).
      exists l. split; [by right|done].
Qed.

(** Running on past a prefix that was loaded without reaching the
    limit. *)
Lemma load_loop_app limit min_year pre suf acc n n' papers :
  load_loop json_loads limit min_year pre acc n = (n', Ok papers) ->
  limit_reached limit papers = false ->
  load_loop json_loads limit min_year (pre ++ suf) acc n
  = load_loop json_loads limit min_year suf papers n'.
Proof.
  revert acc n. induction pre as [|line pre IH]; intros acc n; cbn.
  - intros ?; by simplify_eq.
  - destruct (limit_reached limit acc) eqn:Hr.
    { intros ? Hp; simplify_eq. congruence. }
    destruct (load_line json_loads min_year line) as [[p|]|]; [| |done]; apply IH.
Qed.


(** With a limit the loop stops at the first moment the list holds that
    many papers; what follows the prefix that supplies them is not
    decoded. *)
Lemma load_loop_limit l min_year pre rest acc n :
  Forall (line_ok json_loads min_year) pre ->
  Z.of_nat (length acc) <= l ->
  l <= Z.of_nat (length acc + length (qualifying json_loads min_year pre)) ->
  exists n', load_loop json_loads (Some l) min_year (pre ++ rest) acc n
             = (n', Ok (take (Z.to_nat l) (acc ++ qualifying json_loads min_year pre)))
             /\ (n' <= n + length pre)%nat.
Proof.
  intros H. revert acc n.
  induction H as [|line pre [r Hr] _ IH]; intros acc n Hlo Hhi.
  - cbn in Hhi. assert (Z.to_nat l = length acc) as -> by lia.
    rewrite app_nil_r, firstn_all. exists n. split; [|lia].
    cbn. destruct rest; [done|]. cbn.
    by replace (l <=? Z.of_nat (length acc)) with true by lia.
  - cbn [app load_loop limit_reached].
    destruct (l <=? Z.of_nat (length acc)) eqn:Hreach.
    + exists n. split; [|lia]. assert (Z.to_nat l = length acc) as -> by lia.
      by rewrite take_app_length.
    + unfold qualifying in *. cbn [omap list_omap] in *.
      rewrite Hr in *. destruct r as [p|].
      * destruct (IH (acc ++ [p]) (S n)) as (n' & -> & Hn).
        { rewrite length_app. cbn. lia. }
        { rewrite length_app. cbn in *. lia. }
        exists n'. rewrite <- app_assoc. split; [done|]. cbn. lia.
      * destruct (IH acc (S n)) as (n' & -> & Hn); [lia|cbn in *; lia|].
        exists n'. split; [done|]. cbn. lia.
Qed.

End LoaderFacts.

Section LoaderClaims.

Variable json_loads : string -> option json.

Lemma well_formed_line_ok min_year line :
  well_formed json_loads line -> line_ok json_loads min_year line.
Proof.
  intros (v & Hv & d & i & t & a & -> & Hi & Ht & Ha).
  unfold line_ok, load_line, passes_year, make_paper. rewrite Hv. cbn.
  rewrite Hi, Ht, Ha. cbn.
  destruct min_year as [m|]; cbn; [|eauto].
  destruct (get_year_returns i) as [[y|] ->]; cbn; [|eauto].
  destruct (y <? m); cbn; eauto.
Qed.

(** The loop gets through a file of well-formed lines. *)
Lemma load_loop_returns limit min_year lines acc n :
  Forall (line_ok json_loads min_year) lines ->
  exists n' papers,
    load_loop json_loads limit min_year lines acc n = (n', Ok papers).
Proof.
  intros H. revert acc n.
  induction H as [|line lines [r Hr] _ IH]; intros acc n; cbn; [eauto|].
  destruct (limit_reached limit acc); [eauto|].
  rewrite Hr. destruct r; apply IH.
Qed.

(** C4. When a prefix of the file loads without raising and holds at
    least [l] qualifying records, loading with limit [l] returns the first
    [l] qualifying records of the file in file order, and no line after
    that prefix is decoded, whatever it holds. *)
Theorem load_papers_limit files path l min_year pre rest :
  files !! path = Some (pre ++ rest) ->
  Forall (line_ok json_loads min_year) pre ->
  (Z.to_nat l <= length (qualifying json_loads min_year pre))%nat ->
  load_papers json_loads files path (Some l) min_year
  = Ok (take (Z.to_nat l) (qualifying json_loads min_year (pre ++ rest)))
  /\ length (take (Z.to_nat l)
               (qualifying json_loads min_year (pre ++ rest)))
     = Z.to_nat l
  /\ (lines_decoded json_loads files path (Some l) min_year
      <= length pre)%nat.
Proof.
  intros Hf Hok Hlen. unfold load_papers, lines_decoded. rewrite Hf.
  assert (take (Z.to_nat l) (qualifying json_loads min_year (pre ++ rest))
          = take (Z.to_nat l) (qualifying json_loads min_year pre)) as ->.
  { unfold qualifying. rewrite omap_app. by rewrite take_app_le. }
  split_and!.
  - destruct (Z.le_gt_cases 0 l) as [Hl|Hl].
    + destruct (load_loop_limit json_loads l min_year pre rest [] 0)
        as (n' & -> & _); cbn; [done|lia|lia|done].
    + replace (Z.to_nat l) with 0%nat by lia. cbn.
      destruct (pre ++ rest); [done|]. cbn -[Z.leb Z.of_nat].
      rewrite (proj2 (Z.leb_le l (Z.of_nat 0))) by (cbn; lia).
      reflexivity.
  - rewrite length_take. lia.
  - destruct (Z.le_gt_cases 0 l) as [Hl|Hl].
    + destruct (load_loop_limit json_loads l min_year pre rest [] 0)
        as (n' & -> & ?); cbn; [done|lia|lia|done].
    + destruct (pre ++ rest); cbn -[Z.leb Z.of_nat]; [lia|].
      rewrite (proj2 (Z.leb_le l (Z.of_nat 0))) by (cbn; lia).
      cbn. lia.
Qed.

(** C5. Under a minimum year [m], every paper the loader returns has an
    identifier that resolves to a year, and to one not below [m]: records
    with older or unparseable identifiers are left out. Resolving a [str]
    identifier never raises, and a file of well-formed lines loads
    whatever its identifiers are. *)
Theorem year_filter_excludes files path limit m lines :
  files !! path = Some lines ->
  (forall papers,
      load_papers json_loads files path limit (Some m) = Ok papers ->
      forall p, p ∈ papers ->
        exists s y, paper_id p = JStr s
                    /\ get_year_from_arxiv_id s = Ok (Some y) /\ m <= y)
  /\ (forall s, exists oy, get_year_from_arxiv_id s = Ok oy)
  /\ (forall line d s,
        json_loads line = Some (JObj d) -> d !! "id" = Some (JStr s) ->
        get_year_from_arxiv_id s = Ok None ->
        load_line json_loads (Some m) line = Ok None)
  /\ (Forall (well_formed json_loads) lines ->
      exists papers,
        load_papers json_loads files path limit (Some m) = Ok papers).
Proof.
  intros Hf. unfold load_papers. rewrite Hf. split_and!.
  - intros papers Hload p Hp.
    destruct (load_loop json_loads limit (Some m) lines [] 0)
      as [n' r] eqn:Hloop.
    cbn in Hload. subst r.
    apply load_loop_origin in Hloop as (new & -> & Hnew). cbn in Hp.
    rewrite Forall_forall in Hnew.
    destruct (Hnew p Hp) as (line & _ & Hline).
    by eapply load_line_year.
  - apply get_year_returns.
  - intros line d s Hl Hi Hy. unfold load_line, passes_year.
    rewrite Hl. cbn. rewrite Hi. cbn. by rewrite Hy.
  - intros Hwf.
    destruct (load_loop_returns limit (Some m) lines [] 0)
      as (n' & papers & ->); [|by eauto].
    eapply Forall_impl; [exact Hwf|]. apply well_formed_line_ok.
Qed.

(** Loading a file whose line after a loaded prefix is malformed. *)
Lemma load_papers_malformed files path limit min_year pre bad rest n papers :
  files !! path = Some (pre ++ bad :: rest) ->
  json_loads bad = None ->
  load_loop json_loads limit min_year pre [] 0 = (n, Ok papers) ->
  limit_reached limit papers = false ->
  load_papers json_loads files path limit min_year = Raise JSONDecodeError.
Proof.
  intros Hf Hbad Hpre Hlim. unfold load_papers. rewrite Hf.
  rewrite (load_loop_app _ _ _ _ _ _ _ _ _ Hpre Hlim). cbn.
  rewrite Hlim. unfold load_line. by rewrite Hbad.
Qed.

(** C10. A record without a ["categories"] key makes a paper whose
    categories are the empty string, and so does its metadata; the only
    step that can keep its line from being appended is the year test. *)
Theorem missing_categories_default min_year line d i t a :
  json_loads line = Some (JObj d) ->
  d !! "categories" = None ->
  d !! "id" = Some i ->
  d !! "title" = Some (JStr t) ->
  d !! "abstract" = Some (JStr a) ->
  let p := {| paper_id := i;
              paper_title := PyStr.strip (PyStr.replace "010" " " t);
              paper_abstract := PyStr.strip (PyStr.replace "010" " " a);
              paper_categories := JStr "" |} in
  make_paper (JObj d) = Ok p
  /\ meta_categories (metadata_of p) = JStr ""
  /\ load_line json_loads None line = Ok (Some p)
  /\ load_line json_loads min_year line
     = (keep <- passes_year min_year (JObj d) ;;
        Ok (if keep : bool then Some p else None)).
Proof.
  intros Hl Hc Hi Ht Ha p.
  assert (make_paper (JObj d) = Ok p) as Hp.
  { unfold make_paper. cbn. by rewrite Hi, Ht, Ha, Hc. }
  split_and!; [done|done|..].
  - unfold load_line. rewrite Hl. cbn -[make_paper]. by rewrite Hp.
  - unfold load_line. rewrite Hl.
    destruct (passes_year min_year (JObj d)) as [[]|]; cbn -[make_paper];
      by rewrite ?Hp.
Qed.

End LoaderClaims.

(** ** The vector store *)

Section StoreFacts.

Context {Embedding : Type}.
Variable embed : string -> Embedding.
Variable policy : store_policy.

Implicit Types (w : World Embedding) (col : list (Item Embedding)).

Lemma ids_of_make_items ids documents metadatas :
  ids_of (make_items embed ids documents metadatas) `sublist_of` ids.
Proof.
  revert documents metadatas.
  induction ids as [|i ids IH]; intros [|d ds] [|m ms]; cbn;
    try apply sublist_nil_l.
  apply sublist_skip, IH.
Qed.

Lemma ids_of_make_items_eq ids documents metadatas :
  length documents = length ids -> length metadatas = length ids ->
  ids_of (make_items embed ids documents metadatas) = ids.
Proof.
  revert documents metadatas.
  induction ids as [|i ids IH]; intros [|d ds] [|m ms]; cbn; try done.
  intros ??. f_equal. apply IH; lia.
Qed.

Lemma ids_of_app col1 col2 :
  ids_of (col1 ++ col2) = ids_of col1 ++ ids_of col2.
Proof. apply fmap_app. Qed.

Lemma stored_false col i : stored col i = false <-> i ∉ ids_of col.
Proof. unfold stored. by rewrite bool_decide_eq_false. Qed.

(** What a successful [add] leaves: the collection it found, followed by
    items made from the call's arguments under ids that differ from each
    other and from the ones stored. *)
Lemma add_items_ok ids documents metadatas col col' :
  add_items embed policy ids documents metadatas col = Ok col' ->
  exists sids new,
    mapM str_id ids = Some sids
    /\ col' = col ++ new
    /\ new `sublist_of` make_items embed sids documents metadatas
    /\ NoDup (ids_of new)
    /\ (forall i, i ∈ ids_of new -> i ∉ ids_of col)
    /\ (forall it, it ∈ make_items embed sids documents metadatas ->
                   item_id it ∉ ids_of col -> it ∈ new).
Proof.
  unfold add_items. destruct (mapM str_id ids) as [sids|]; [|done].
  case_bool_decide as Hnd; [|done].
  destruct (forallb (accepts policy) metadatas); [|done].
  set (made := make_items embed sids documents metadatas).
  assert (NoDup (ids_of made)) as Hmade.
  { eapply sublist_NoDup; [exact Hnd|apply ids_of_make_items]. }
  destruct (existing policy).
  - intros ?; simplify_eq. eexists sids, _. split_and!; [done|done|..].
    + apply sublist_filter.
    + eapply sublist_NoDup; [exact Hmade|].
      apply fmap_sublist, sublist_filter.
    + intros i (it & -> & [Hit _]%list_elem_of_filter)%list_elem_of_fmap.
      by apply stored_false.
    + intros it Hit Hnew. apply list_elem_of_filter. split; [|done].
      by apply stored_false.
  - destruct (existsb (stored col) sids) eqn:Hex; [done|].
    intros ?; simplify_eq. eexists sids, made. split_and!; try done.
    intros i Hi Hcol.
    assert (existsb (stored col) sids = true) as Hex'; [|congruence].
    apply existsb_exists. exists i. split.
    + apply list_elem_of_In. eapply elem_of_sublist; [exact Hi|].
      apply ids_of_make_items.
    + unfold stored. by apply bool_decide_eq_true.
Qed.

Lemma add_items_unique ids documents metadatas col col' :
  add_items embed policy ids documents metadatas col = Ok col' ->
  NoDup (ids_of col) -> NoDup (ids_of col').
Proof.
  intros (sids & new & _ & -> & _ & Hnew & Hfresh & _)%add_items_ok Hcol.
  rewrite ids_of_app. apply NoDup_app. split_and!; [done| |done].
  intros i Hi Hi'. by apply (Hfresh i).
Qed.

(** An item found under an id stays the one found after items are
    appended. *)
Lemma item_of_app col new i it :
  item_of col i = Some it -> item_of (col ++ new) i = Some it.
Proof.
  unfold item_of. induction col as [|x col IH]; cbn; [done|].
  case_bool_decide; [done|apply IH].
Qed.

End StoreFacts.

(** ** Runs of the scripts *)

Section RunFacts.

Context {Embedding : Type}.
Variable embed : string -> Embedding.
Variable policy : store_policy.
Variable json_loads : string -> option json.
Variable DATA_FILE : string.

Implicit Types (w : World Embedding) (col : list (Item Embedding)).

#[export] Instance evolves_preorder : PreOrder (@evolves Embedding).
Proof.
  split.
  - intros w. split_and!; [done| |done]. exists []. by rewrite app_nil_r.
  - intros w1 w2 w3 (Hf1 & [cs1 Hc1] & Hu1) (Hf2 & [cs2 Hc2] & Hu2).
    split_and!; [congruence| |auto].
    exists (cs1 ++ cs2). by rewrite Hc2, Hc1, app_assoc.
Qed.

#[export] Instance grows_preorder : PreOrder (@grows Embedding).
Proof.
  split.
  - intros w name col H. exists []. by rewrite app_nil_r.
  - intros w1 w2 w3 H1 H2 name col H.
    destruct (H1 _ _ H) as [new1 H'], (H2 _ _ H') as [new2 H''].
    exists (new1 ++ new2). by rewrite app_assoc.
Qed.

Section Preserves.

Variable R : World Embedding -> World Embedding -> Prop.
Context `{!PreOrder R}.

Lemma preserves_ret {A} (a : A) : preserves R (ret a).
Proof. intros w. reflexivity. Qed.

Lemma preserves_throw {A} e : preserves R (throw (A := A) e).
Proof. intros w. reflexivity. Qed.

Lemma preserves_lift {A} (f : World Embedding -> result A) :
  preserves R (fun w => lift (f w) w).
Proof. intros w. reflexivity. Qed.

Lemma preserves_bind {A B} (m : M Embedding A) (k : A -> M Embedding B) :
  preserves R m -> (forall a, preserves R (k a)) ->
  preserves R (bind m k).
Proof.
  intros Hm Hk w. unfold bind. specialize (Hm w).
  destruct (m w) as [w' [a|e]]; cbn in *; [|done].
  etrans; [exact Hm|apply Hk].
Qed.

Lemma preserves_try {A} (body handler : M Embedding A) handles :
  preserves R body -> preserves R handler ->
  preserves R (try_except body handles handler).
Proof.
  intros Hb Hh w. unfold try_except. specialize (Hb w).
  destruct (body w) as [w' [a|e]]; cbn in *; [done|].
  destruct (handles e); [|done]. etrans; [exact Hb|apply Hh].
Qed.

Lemma preserves_for_each {A} (xs : list A) body :
  (forall x, preserves R (body x)) -> preserves R (for_each xs body).
Proof.
  intros Hb. induction xs as [|x xs IH]; cbn.
  - apply preserves_ret.
  - apply preserves_bind; [apply Hb|intros _; apply IH].
Qed.

End Preserves.

Lemma print_evolves line : preserves evolves (print (Embedding := Embedding) line).
Proof.
  intros w. split_and!; [done| |done]. exists []. by rewrite app_nil_r.
Qed.

Lemma print_grows line : preserves grows (print (Embedding := Embedding) line).
Proof. intros w name col H. exists []. by rewrite app_nil_r. Qed.

Lemma delete_collection_evolves name :
  preserves evolves
    (delete_collection (Embedding := Embedding) policy name).
Proof.
  intros w. unfold delete_collection. cbn.
  destruct (collections w !! name) eqn:Hn; cbn;
    (split_and!; [done|by eexists|]); [|done].
  intros Hu n col Hc. cbn in Hc.
  apply lookup_delete_Some in Hc as [_ Hc]. by eapply Hu.
Qed.

Lemma get_or_create_evolves name :
  preserves evolves (get_or_create_collection (Embedding := Embedding) name).
Proof.
  intros w. unfold get_or_create_collection. cbn.
  destruct (collections w !! name) eqn:Hn; cbn;
    (split_and!; [done|by eexists|]); [done|].
  intros Hu n col Hc. cbn in Hc.
  apply lookup_insert_Some in Hc as [[_ <-]|[_ Hc]].
  - constructor.
  - by eapply Hu.
Qed.

Lemma get_or_create_grows name :
  preserves grows (get_or_create_collection (Embedding := Embedding) name).
Proof.
  intros w. unfold get_or_create_collection. cbn.
  destruct (collections w !! name) eqn:Hn; cbn; intros n col Hc;
    exists []; rewrite app_nil_r; cbn in *; [done|].
  rewrite lookup_insert_ne; [done|]. intros ->. congruence.
Qed.

Lemma collection_add_evolves name documents ids metadatas :
  preserves evolves (collection_add embed policy name documents ids metadatas).
Proof.
  intros w. unfold collection_add. cbn.
  destruct (collections w !! name) as [col|] eqn:Hn; cbn;
    [|split_and!; [done|by eexists|done]].
  destruct (add_items embed policy ids documents metadatas col)
    as [col'|e] eqn:Hadd; cbn; (split_and!; [done|by eexists|]); [|done].
  intros Hu n c Hc. cbn in Hc.
  apply lookup_insert_Some in Hc as [[_ <-]|[_ Hc]].
  - eapply add_items_unique; [exact Hadd|]. by eapply Hu.
  - by eapply Hu.
Qed.

Lemma collection_add_grows name documents ids metadatas :
  preserves grows (collection_add embed policy name documents ids metadatas).
Proof.
  intros w. unfold collection_add. cbn.
  destruct (collections w !! name) as [col|] eqn:Hn; cbn;
    [|intros n c Hc; exists []; by rewrite app_nil_r].
  destruct (add_items embed policy ids documents metadatas col)
    as [col'|e] eqn:Hadd; cbn;
    [|intros n c Hc; exists []; by rewrite app_nil_r].
  apply add_items_ok in Hadd as (_ & new & _ & -> & _).
  intros n c Hc. cbn in *. destruct (decide (name = n)) as [->|Hne].
  - exists new. rewrite lookup_insert_eq. congruence.
  - exists []. by rewrite lookup_insert_ne, app_nil_r.
Qed.

Lemma collection_count_evolves name :
  preserves evolves (collection_count (Embedding := Embedding) name).
Proof.
  intros w. unfold collection_count. cbn.
  destruct (collections w !! name); cbn; (split_and!; [done|by eexists|done]).
Qed.

Lemma collection_count_grows name :
  preserves grows (collection_count (Embedding := Embedding) name).
Proof.
  intros w. unfold collection_count. cbn.
  destruct (collections w !! name); cbn; intros n c Hc; exists [];
    by rewrite app_nil_r.
Qed.

(** *** Batches *)

Lemma batch_count_spec (n i : nat) :
  (i < (n - 0 + BATCH_SIZE - 1) / BATCH_SIZE <-> i * BATCH_SIZE < n)%nat.
Proof.
  unfold BATCH_SIZE.
  pose proof (Nat.div_mod_eq (n - 0 + 100 - 1) 100) as E.
  pose proof (Nat.mod_upper_bound (n - 0 + 100 - 1) 100 ltac:(lia)).
  generalize dependent ((n - 0 + 100 - 1) / 100)%nat.
  generalize dependent ((n - 0 + 100 - 1) mod 100)%nat. intros. lia.
Qed.

(** The batch at position [i] is the slice of a hundred papers from
    paper [100 * i] on, and there is one for every such slice that is
    not empty. *)
Lemma batches_lookup papers i b :
  batches papers !! i = Some b
  <-> (i * BATCH_SIZE < length papers)%nat
      /\ b = take BATCH_SIZE (drop (i * BATCH_SIZE) papers).
Proof.
  unfold batches, py_range, slice.
  rewrite !list_lookup_fmap. split.
  - destruct (seq _ _ !! i) as [k|] eqn:Hk; [|done].
    apply lookup_seq in Hk as [-> Hi%batch_count_spec].
    cbn [fmap option_fmap option_map]. intros ?; simplify_eq.
    split; [done|].
    replace (0 + (0 + i) * BATCH_SIZE)%nat with (i * BATCH_SIZE)%nat by lia.
    f_equal. lia.
  - intros [Hi%batch_count_spec ->].
    rewrite lookup_seq_lt by done. cbn [fmap option_fmap option_map].
    replace (0 + (0 + i) * BATCH_SIZE)%nat with (i * BATCH_SIZE)%nat by lia.
    do 2 f_equal. lia.
Qed.

Lemma batches_take_concat (papers : list Paper) (k : nat) :
  concat ((fun i => slice i (i + BATCH_SIZE) papers)
            <$> ((fun j => 0 + j * BATCH_SIZE)%nat <$> seq 0 k))
  = take (k * BATCH_SIZE) papers.
Proof.
  induction k as [|k IH]; [done|].
  rewrite seq_S, !fmap_app, concat_app, IH. cbn [fmap list_fmap concat].
  rewrite app_nil_r. unfold slice.
  replace (0 + (0 + k) * BATCH_SIZE + BATCH_SIZE - (0 + (0 + k) * BATCH_SIZE))%nat
    with BATCH_SIZE by lia.
  replace (0 + (0 + k) * BATCH_SIZE)%nat with (k * BATCH_SIZE)%nat by lia.
  rewrite take_take_drop. f_equal. lia.
Qed.

(** The batches, one after the other, are the papers. *)
Lemma batches_concat papers : concat (batches papers) = papers.
Proof.
  unfold batches, py_range. rewrite batches_take_concat.
  apply take_ge.
  destruct (decide (length papers = 0)%nat) as [->|Hn]; [cbn; lia|].
  pose proof (batch_count_spec (length papers)
                ((length papers - 0 + BATCH_SIZE - 1) / BATCH_SIZE - 1)).
  pose proof (batch_count_spec (length papers)
                ((length papers - 0 + BATCH_SIZE - 1) / BATCH_SIZE)).
  pose proof (batch_count_spec (length papers) 0).
  generalize dependent
    ((length papers - 0 + BATCH_SIZE - 1) / BATCH_SIZE)%nat.
  unfold BATCH_SIZE. intros. lia.
Qed.

(** *** The calls of the batch loop *)




(** *** The steps of [main] *)

Lemma print_summary_evolves args :
  preserves evolves (print_summary (Embedding := Embedding) args).
Proof.
  unfold print_summary.
  repeat (apply preserves_bind; [apply _|apply print_evolves|intros _]).
  apply print_evolves.
Qed.

Lemma print_summary_grows args :
  preserves grows (print_summary (Embedding := Embedding) args).
Proof.
  unfold print_summary.
  repeat (apply preserves_bind; [apply _|apply print_grows|intros _]).
  apply print_grows.
Qed.

Lemma clean_collection_evolves args :
  preserves evolves
    (clean_collection (Embedding := Embedding) policy args).
Proof.
  unfold clean_collection. destruct (clean args).
  - apply preserves_try; [apply _| |apply print_evolves].
    apply preserves_bind; [apply _| |intros _; apply print_evolves].
    apply delete_collection_evolves.
  - apply preserves_ret, _.
Qed.

Lemma read_papers_evolves args :
  preserves evolves
    (read_papers (Embedding := Embedding) json_loads DATA_FILE args).
Proof.
  unfold read_papers.
  apply preserves_bind; [apply _|apply print_evolves|intros _].
  apply preserves_bind; [apply _| |intros papers].
  { apply (preserves_lift _
             (fun w => load_papers json_loads (files w) DATA_FILE _ _)). }
  apply preserves_bind; [apply _|apply print_evolves|intros _].
  apply preserves_ret, _.
Qed.

Lemma read_papers_grows args :
  preserves grows
    (read_papers (Embedding := Embedding) json_loads DATA_FILE args).
Proof.
  unfold read_papers.
  apply preserves_bind; [apply _|apply print_grows|intros _].
  apply preserves_bind; [apply _| |intros papers].
  { apply (preserves_lift _
             (fun w => load_papers json_loads (files w) DATA_FILE _ _)). }
  apply preserves_bind; [apply _|apply print_grows|intros _].
  apply preserves_ret, _.
Qed.

Lemma ingest_evolves papers : preserves evolves (ingest embed policy papers).
Proof.
  unfold ingest.
  apply preserves_bind; [apply _|apply get_or_create_evolves|intros c].
  apply preserves_bind; [apply _|apply print_evolves|intros _].
  apply preserves_bind; [apply _| |intros _].
  { apply preserves_for_each; [apply _|]. intros b.
    apply collection_add_evolves. }
  apply preserves_bind; [apply _|apply print_evolves|intros _].
  apply preserves_bind; [apply _|apply collection_count_evolves|intros n].
  apply print_evolves.
Qed.

Lemma ingest_grows papers : preserves grows (ingest embed policy papers).
Proof.
  unfold ingest.
  apply preserves_bind; [apply _|apply get_or_create_grows|intros c].
  apply preserves_bind; [apply _|apply print_grows|intros _].
  apply preserves_bind; [apply _| |intros _].
  { apply preserves_for_each; [apply _|]. intros b.
    apply collection_add_grows. }
  apply preserves_bind; [apply _|apply print_grows|intros _].
  apply preserves_bind; [apply _|apply collection_count_grows|intros n].
  apply print_grows.
Qed.

Lemma main_evolves args :
  preserves evolves (main embed policy json_loads DATA_FILE args).
Proof.
  unfold main.
  apply preserves_bind; [apply _|apply print_summary_evolves|intros _].
  apply preserves_bind; [apply _|apply clean_collection_evolves|intros _].
  apply preserves_bind; [apply _|apply read_papers_evolves|intros papers].
  apply ingest_evolves.
Qed.

Lemma main_grows args :
  clean args = false ->
  preserves grows (main embed policy json_loads DATA_FILE args).
Proof.
  intros Hc. unfold main.
  apply preserves_bind; [apply _|apply print_summary_grows|intros _].
  apply preserves_bind; [apply _| |intros _].
  { unfold clean_collection. rewrite Hc. apply preserves_ret, _. }
  apply preserves_bind; [apply _|apply read_papers_grows|intros papers].
  apply ingest_grows.
Qed.

(** Reading when the load returns: two lines are printed, nothing else
    changes. *)
Lemma read_papers_run args w papers :
  load_papers json_loads (files w) DATA_FILE (effective_limit args)
              (year args) = Ok papers ->
  exists w',
    read_papers json_loads DATA_FILE args w = (w', Ok papers)
    /\ files w' = files w /\ collections w' = collections w
    /\ calls w' = calls w
    /\ exists line, stdout w'
                    = stdout w ++ [line; "Read " +:+ pretty (length papers)
                                         +:+ " papers"].
Proof.
  intros Hload. eexists. unfold read_papers, bind, print, lift, ret.
  cbn -[pretty]. rewrite Hload. split; [reflexivity|].
  cbn -[pretty]. split_and!; try done. eexists. by rewrite <- app_assoc.
Qed.

(** The summary and the cleaning: they leave the files, drop the
    collection when asked to, and log that one call. They go through
    unless the store answers the deletion of a missing collection with an
    exception the [except] clause does not cover. *)
Lemma prologue_run args w :
  exists w1,
    bind (print_summary args) (fun _ => clean_collection policy args) w
    = (w1, if clean_raises policy args w then Raise NotFoundError
           else Ok tt)
    /\ files w1 = files w
    /\ collections w1
       = (if clean args then delete COLLECTION (collections w)
          else collections w)
    /\ calls w1
       = calls w ++ (if clean args then [CallDelete COLLECTION] else [])
    /\ stdout w1
       = stdout (fst (print_summary args w))
         ++ (if clean args && negb (clean_raises policy args w)
             then [if bool_decide (is_Some (collections w !! COLLECTION))
                   then "Deleted existing collection 'arxiv_papers'"
                   else "No existing collection to delete"]
             else []).
Proof.
  unfold bind at 1. cbn. unfold clean_collection, clean_raises.
  destruct (clean args); cbn.
  - unfold try_except, bind, delete_collection, missing_error. cbn.
    destruct (collections w !! COLLECTION) as [col|] eqn:Hc; cbn.
    + eexists. split_and!; reflexivity.
    + destruct (missing policy); cbn; eexists;
        (split_and!; try reflexivity; cbn; rewrite ?app_nil_r;
         by rewrite ?delete_id).
  - eexists. split_and!; try reflexivity; cbn; by rewrite app_nil_r.
Qed.

Lemma main_after_prologue args w w1 :
  bind (print_summary args) (fun _ => clean_collection policy args) w
  = (w1, Ok tt) ->
  main embed policy json_loads DATA_FILE args w
  = bind (read_papers json_loads DATA_FILE args) (ingest embed policy) w1.
Proof.
  unfold main, bind.
  destruct (print_summary args w) as [w' [[]|e]]; [|done].
  destruct (clean_collection policy args w') as [w'' [[]|e]]; [|done].
  by intros ?; simplify_eq.
Qed.

(** A run that the cleaning ends. *)
Lemma main_prologue_raises args w w1 e :
  bind (print_summary args) (fun _ => clean_collection policy args) w
  = (w1, Raise e) ->
  main embed policy json_loads DATA_FILE args w = (w1, Raise e).
Proof.
  unfold main, bind.
  destruct (print_summary args w) as [w' [[]|e']]; [|done].
  by destruct (clean_collection policy args w') as [w'' [[]|e']].
Qed.

(** A run whose load raises ends with that exception, unless the cleaning
    has ended it before. *)
Lemma main_load_raises args w e :
  load_papers json_loads (files w) DATA_FILE (effective_limit args)
              (year args) = Raise e ->
  snd (main embed policy json_loads DATA_FILE args w)
  = Raise (if clean_raises policy args w then NotFoundError else e)
  /\ calls (fst (main embed policy json_loads DATA_FILE args w))
     = calls w ++ (if clean args then [CallDelete COLLECTION] else []).
Proof.
  intros Hload.
  destruct (prologue_run args w) as (w1 & Hp & Hf & _ & Hcalls & _).
  destruct (clean_raises policy args w).
  - by rewrite (main_prologue_raises _ _ _ _ Hp).
  - rewrite (main_after_prologue _ _ _ Hp).
    unfold bind, read_papers, bind, print, lift. cbn. rewrite Hf.
    by rewrite Hload.
Qed.

(** A run whose cleaning goes through and whose load returns comes to
    the ingestion of the loaded papers, the collection deleted when that
    was asked for and otherwise as it was. *)
Lemma main_reaches_ingest args w papers :
  clean_raises policy args w = false ->
  load_papers json_loads (files w) DATA_FILE (effective_limit args)
              (year args) = Ok papers ->
  exists w2,
    main embed policy json_loads DATA_FILE args w
    = ingest embed policy papers w2
    /\ files w2 = files w
    /\ collections w2
       = (if clean args then delete COLLECTION (collections w)
          else collections w)
    /\ calls w2
       = calls w ++ (if clean args then [CallDelete COLLECTION] else []).
Proof.
  intros Hr Hload.
  destruct (prologue_run args w) as (w1 & Hp & Hf1 & Hcol1 & Hcalls1 & _).
  rewrite Hr in Hp. rewrite (main_after_prologue _ _ _ Hp).
  destruct (read_papers_run args w1 papers)
    as (w2 & Hrd & Hf2 & Hcol2 & Hcalls2 & _).
  { by rewrite Hf1. }
  exists w2. unfold bind at 1. rewrite Hrd.
  split_and!; [done|congruence..].
Qed.

(** *** Ingesting papers that are new to the collection *)

Lemma paper_items_made batch :
  string_ids batch ->
  mapM str_id (paper_id <$> batch) = Some (ids_of (paper_items embed batch))
  /\ make_items embed (ids_of (paper_items embed batch))
       (embedding_text <$> batch) (metadata_of <$> batch)
     = paper_items embed batch.
Proof.
  induction 1 as [|p batch [s Hs] _ [IH1 IH2]]; [done|].
  unfold paper_items, paper_item in *. cbn. rewrite Hs. cbn.
  split.
  - change (mapM str_id (paper_id <$> batch)) with
      (mapM str_id (paper_id <$> batch)) in IH1.
    by rewrite IH1.
  - f_equal. exact IH2.
Qed.

Lemma paper_items_length batch :
  string_ids batch -> length (paper_items embed batch) = length batch.
Proof.
  induction 1 as [|p batch [s Hs] _ IH]; [done|].
  unfold paper_items, paper_item in *. cbn. rewrite Hs. cbn. by rewrite IH.
Qed.

Lemma paper_items_concat (bs : list (list Paper)) :
  paper_items embed (concat bs) = concat (paper_items embed <$> bs).
Proof.
  induction bs as [|b bs IH]; [done|]. cbn.
  unfold paper_items in *. by rewrite omap_app, IH.
Qed.

Lemma accepted_fmap batch :
  forallb (accepts policy) (metadata_of <$> batch) = accepted policy batch.
Proof.
  unfold accepted. induction batch as [|p batch IH]; [done|].
  cbn. by rewrite IH.
Qed.

Lemma accepted_app batch1 batch2 :
  accepted policy (batch1 ++ batch2)
  = accepted policy batch1 && accepted policy batch2.
Proof. apply forallb_app. Qed.

Lemma accepted_sublist batch papers :
  batch `sublist_of` papers ->
  accepted policy papers = true -> accepted policy batch = true.
Proof.
  unfold accepted. induction 1 as [|p l1 l2 _ IH|p l1 l2 _ IH]; cbn.
  - done.
  - intros [? ?]%andb_prop. by rewrite IH, andb_true_r.
  - intros [? ?]%andb_prop. by apply IH.
Qed.


Lemma filter_keeps_all {A} (P : A -> Prop) `{!forall x, Decision (P x)}
    (l : list A) :
  Forall P l -> filter P l = l.
Proof.
  induction 1 as [|x l Hx _ IH]; [done|].
  rewrite filter_cons, decide_True by done. by rewrite IH.
Qed.

(** An [add] of papers with fresh [str] ids and accepted metadata appends
    their items. *)
Lemma add_items_fresh batch col :
  string_ids batch ->
  NoDup (ids_of (paper_items embed batch)) ->
  accepted policy batch = true ->
  (forall i, i ∈ ids_of (paper_items embed batch) -> i ∉ ids_of col) ->
  add_items embed policy (paper_id <$> batch) (embedding_text <$> batch)
            (metadata_of <$> batch) col
  = Ok (col ++ paper_items embed batch).
Proof.
  intros Hs Hnd Ha Hfresh. destruct (paper_items_made batch Hs) as [Hm Hi].
  unfold add_items. rewrite Hm, bool_decide_eq_true_2 by done.
  rewrite accepted_fmap, Ha, Hi.
  destruct (existing policy).
  - rewrite filter_keeps_all; [done|].
    apply Forall_forall. intros it Hit. apply stored_false, Hfresh.
    unfold ids_of. apply list_elem_of_fmap. by exists it.
  - destruct (existsb _ _) eqn:Hex; [|done].
    apply existsb_exists in Hex as (i & Hi'%list_elem_of_In & Hst).
    unfold stored in Hst. apply bool_decide_eq_true in Hst.
    by destruct (Hfresh i).
Qed.

(** The batch loop over batches of papers with fresh [str] ids and
    accepted metadata: every [add] goes through and the collection gains
    the items of all the papers, in order. *)
Lemma for_each_add_fresh c bs : forall col w,
  collections w !! c = Some col ->
  string_ids (concat bs) ->
  NoDup (ids_of (paper_items embed (concat bs))) ->
  accepted policy (concat bs) = true ->
  (forall i,
      i ∈ ids_of (paper_items embed (concat bs)) -> i ∉ ids_of col) ->
  exists w',
    for_each bs (add_batch embed policy c) w = (w', Ok tt)
    /\ files w' = files w
    /\ stdout w' = stdout w
    /\ calls w' = calls w ++ (add_call c <$> bs)
    /\ collections w'
       = <[c := col ++ paper_items embed (concat bs)]> (collections w).
Proof.
  induction bs as [|b bs IH]; intros col w Hc Hs Hnd Ha Hfresh.
  - exists w. cbn. rewrite !app_nil_r. split_and!; try done.
    by rewrite insert_id.
  - cbn [concat] in *. unfold string_ids in Hs.
    apply Forall_app in Hs as [Hsb Hsbs].
    rewrite accepted_app in Ha. apply andb_prop in Ha as [Hab Habs].
    unfold paper_items in Hnd, Hfresh. rewrite omap_app in Hnd, Hfresh.
    fold (paper_items embed b) in Hnd, Hfresh.
    fold (paper_items embed (concat bs)) in Hnd, Hfresh.
    rewrite ids_of_app in Hnd, Hfresh.
    apply NoDup_app in Hnd as (Hnd1 & Hdisj & Hnd2).
    assert (add_batch embed policy c b w
            = (set_collections
                 (<[c := col ++ paper_items embed b]> (collections w))
                 (log (add_call c b) w), Ok tt)) as Hb.
    { unfold add_batch, collection_add, add_call. cbn [collections log].
      rewrite Hc, add_items_fresh; [done..|].
      intros i Hi. apply Hfresh. apply elem_of_app. by left. }
    edestruct (IH (col ++ paper_items embed b)
                 (set_collections
                    (<[c := col ++ paper_items embed b]> (collections w))
                    (log (add_call c b) w)))
      as (w' & Hrun & Hf' & Ho' & Hc' & Hcol').
    { cbn. apply lookup_insert_eq. }
    { done. }
    { done. }
    { done. }
    { intros i Hi. rewrite ids_of_app. intros [Hl|Hr]%elem_of_app.
      - apply (Hfresh i); [apply elem_of_app; by right|done].
      - by apply (Hdisj i). }
    exists w'. cbn [for_each]. unfold bind. rewrite Hb, Hrun.
    cbn in *. split_and!; try done.
    + by rewrite Hc', <- app_assoc.
    + rewrite Hcol', insert_insert_eq. unfold paper_items.
      by rewrite omap_app, app_assoc.
Qed.

(** The run of the ingestion proper over papers with fresh [str] ids and
    accepted metadata, field by field. *)
Lemma ingest_fresh papers w :
  string_ids papers ->
  NoDup (ids_of (paper_items embed papers)) ->
  accepted policy papers = true ->
  (forall col i,
      collections w !! COLLECTION = Some col ->
      i ∈ ids_of (paper_items embed papers) -> i ∉ ids_of col) ->
  exists w',
    ingest embed policy papers w = (w', Ok tt)
    /\ files w' = files w
    /\ collections w'
       = <[COLLECTION := default [] (collections w !! COLLECTION)
                         ++ paper_items embed papers]> (collections w)
    /\ length (paper_items embed papers) = length papers
    /\ calls w'
       = calls w ++ CallGetOrCreate COLLECTION
                 :: (add_call COLLECTION <$> batches papers)
                 ++ [CallCount COLLECTION]
    /\ stdout w'
       = stdout w
         ++ ["Generating embeddings...";
             String "010" "Successfully embedded "
             +:+ pretty (length papers) +:+ " papers";
             "Collection count: "
             +:+ pretty (length (default [] (collections w !! COLLECTION))
                         + length papers)%nat].
Proof.
  intros Hs Hnd Ha Hfresh.
  set (col := default [] (collections w !! COLLECTION)).
  set (w0 := fst (get_or_create_collection COLLECTION w)).
  assert (get_or_create_collection COLLECTION w = (w0, Ok COLLECTION)
          /\ collections w0 = <[COLLECTION := col]> (collections w)
          /\ files w0 = files w /\ stdout w0 = stdout w
          /\ calls w0 = calls w ++ [CallGetOrCreate COLLECTION]
          /\ forall i, i ∈ ids_of (paper_items embed papers) ->
                       i ∉ ids_of col)
    as (Hg & Hcol0 & Hf0 & Ho0 & Hc0 & Hfr).
  { subst w0 col. unfold get_or_create_collection. cbn.
    destruct (collections w !! COLLECTION) as [c|] eqn:Hc; cbn.
    - split_and!; try done; [by rewrite insert_id|]. intros i. by apply Hfresh.
    - split_and!; try done. intros i _ ?%elem_of_nil. done. }
  set (w1 := fst (print "Generating embeddings..." w0)).
  destruct (for_each_add_fresh COLLECTION (batches papers) col w1)
    as (w2 & Hrun & Hf2 & Ho2 & Hc2 & Hcol2).
  { subst w1. cbn. rewrite Hcol0. apply lookup_insert_eq. }
  { by rewrite batches_concat. }
  { by rewrite batches_concat. }
  { by rewrite batches_concat. }
  { rewrite batches_concat. exact Hfr. }
  rewrite batches_concat in Hcol2.
  pose proof (paper_items_length papers Hs) as Hlen.
  eexists. unfold ingest, bind. rewrite Hg.
  change (print "Generating embeddings..." w0) with (w1, @Ok unit tt).
  cbn iota beta. rewrite Hrun. cbn iota beta.
  unfold print at 1, collection_count. cbn -[pretty batches].
  rewrite Hcol2. subst w1. cbn -[pretty batches] in *.
  rewrite Hcol0, insert_insert_eq, lookup_insert_eq. cbn -[pretty batches].
  split; [reflexivity|].
  split_and!; cbn -[pretty batches]; try done.
  - congruence.
  - by rewrite Hc2, Hc0, <- !app_assoc.
  - rewrite Ho2, Ho0, <- !app_assoc. cbn -[pretty].
    by rewrite length_app, Hlen.
Qed.

End RunFacts.

Section RunClaims.

Context {Embedding : Type}.
Variable embed : string -> Embedding.
Variable policy : store_policy.
Variable json_loads : string -> option json.
Variable DATA_FILE : string.

Implicit Types (w : World Embedding) (col : list (Item Embedding)).

(** C6. With the clean flag the deletion is the first call the run logs,
    ahead of every [add]. When the collection exists, or the store answers
    the deletion of a missing one with a [ValueError], the cleaning goes
    through: the collection is gone afterwards (nothing changes when it
    was not there), one line tells which case it was, and the run goes on
    to read and ingest from that world. When the collection is missing and
    the store raises its [NotFoundError], the [except ValueError] of line
    119 does not cover it: the run ends there with that error, nothing
    read and nothing ingested. *)
Theorem clean_deletes_first args w :
  clean args = true ->
  (exists cs,
      calls (fst (main embed policy json_loads DATA_FILE args w))
      = calls w ++ CallDelete COLLECTION :: cs)
  /\ (clean_raises policy args w = false ->
      exists w1,
        bind (print_summary args) (fun _ => clean_collection policy args) w
        = (w1, Ok tt)
        /\ collections w1 = delete COLLECTION (collections w)
        /\ stdout w1
           = stdout (fst (print_summary args w))
             ++ [if bool_decide (is_Some (collections w !! COLLECTION))
                 then "Deleted existing collection 'arxiv_papers'"
                 else "No existing collection to delete"]
        /\ main embed policy json_loads DATA_FILE args w
           = bind (read_papers json_loads DATA_FILE args)
                  (ingest embed policy) w1)
  /\ (clean_raises policy args w = true ->
      collections w !! COLLECTION = None
      /\ missing policy = MissingNotFound
      /\ exists w1,
           main embed policy json_loads DATA_FILE args w
           = (w1, Raise NotFoundError)
           /\ collections w1 = collections w
           /\ calls w1 = calls w ++ [CallDelete COLLECTION]
           /\ stdout w1 = stdout (fst (print_summary args w))).
Proof.
  intros Hc.
  destruct (prologue_run policy args w)
    as (w1 & Hp & _ & Hcol & Hcalls & Hout).
  rewrite Hc in *. cbn [andb] in Hout. split_and!.
  - destruct (clean_raises policy args w).
    + rewrite (main_prologue_raises embed policy json_loads DATA_FILE
                 _ _ _ _ Hp).
      exists []. done.
    + rewrite (main_after_prologue embed policy json_loads DATA_FILE
                 _ _ _ Hp).
      assert (preserves evolves
                (bind (read_papers json_loads DATA_FILE args)
                      (ingest embed policy))) as Hev.
      { apply preserves_bind; [apply _|apply read_papers_evolves|].
        intros papers. apply ingest_evolves. }
      destruct (Hev w1) as (_ & [cs Hcs] & _).
      exists cs. by rewrite Hcs, Hcalls, <- app_assoc.
  - intros Hr. rewrite Hr in *. exists w1. split_and!; try done.
    by apply main_after_prologue.
  - intros Hr. rewrite Hr in *. unfold clean_raises in Hr.
    rewrite Hc in Hr. cbn in Hr.
    apply andb_prop in Hr as [Hnone%bool_decide_eq_true Hm].
    split_and!; [done|by destruct (missing policy)|].
    exists w1. split_and!; try done.
    + by apply main_prologue_raises.
    + by rewrite Hcol, delete_id.
    + cbn in Hout. by rewrite app_nil_r in Hout.
Qed.


(** C8. When the lines before a malformed line load without raising and
    without reaching the limit, the load raises the decoder's error at
    that line. The run ends with that error, or with the error of a
    cleaning that has ended it before any line was read, and has passed
    nothing to the store. *)
Theorem malformed_line_aborts args w pre bad rest n papers :
  files w !! DATA_FILE = Some (pre ++ bad :: rest) ->
  json_loads bad = None ->
  load_loop json_loads (effective_limit args) (year args) pre [] 0
  = (n, Ok papers) ->
  limit_reached (effective_limit args) papers = false ->
  load_papers json_loads (files w) DATA_FILE (effective_limit args)
              (year args) = Raise JSONDecodeError
  /\ snd (main embed policy json_loads DATA_FILE args w)
     = Raise (if clean_raises policy args w then NotFoundError
              else JSONDecodeError)
  /\ calls (fst (main embed policy json_loads DATA_FILE args w))
     = calls w ++ (if clean args then [CallDelete COLLECTION] else []).
Proof.
  intros Hf Hbad Hpre Hlim.
  pose proof (load_papers_malformed json_loads _ _ _ _ _ _ _ _ _
                Hf Hbad Hpre Hlim) as Hload.
  split; [done|]. by apply main_load_raises.
Qed.


Lemma with_file_unique path lines w :
  unique_ids w -> unique_ids (with_file path lines w).
Proof. done. Qed.

(** C1. Over any sequence of runs no collection ever holds two items
    under one id. Runs without the clean flag never change an item that
    is stored: whatever is ingested later under the same id, the item
    found for it stays the one stored first. *)
Theorem readd_keeps_stored runs w :
  unique_ids w ->
  unique_ids (ingestion_runs embed policy json_loads DATA_FILE runs w)
  /\ (Forall (fun r => clean (fst r) = false) runs ->
      forall name col i it,
        collections w !! name = Some col ->
        item_of col i = Some it ->
        exists col',
          collections
            (ingestion_runs embed policy json_loads DATA_FILE runs w)
          !! name = Some col'
          /\ item_of col' i = Some it).
Proof.
  revert w. induction runs as [|[args lines] runs IH]; intros w Hu.
  - split; [done|]. intros _ name col i it Hc Hi. by exists col.
  - cbn [ingestion_runs].
    set (w' := fst (main embed policy json_loads DATA_FILE args
                         (with_file DATA_FILE lines w))).
    assert (unique_ids w') as Hu'.
    { apply (main_evolves embed policy json_loads DATA_FILE args
                          (with_file DATA_FILE lines w)).
      by apply with_file_unique. }
    destruct (IH w' Hu') as [IH1 IH2]. split; [done|].
    intros Hclean name col i it Hc Hi. inv Hclean.
    destruct (main_grows embed policy json_loads DATA_FILE args
                ltac:(done) (with_file DATA_FILE lines w) name col Hc)
      as [new Hnew].
    eapply IH2; [done|exact Hnew|]. by apply item_of_app.
Qed.

End RunClaims.

(** ** The query service *)

Section ApiClaims.

Context {Embedding Distance : Type}.
Variable nearest :
  list (Item Embedding) -> list string -> Z -> option (QueryResult Distance).

Implicit Types (w : World Embedding).

Lemma index_not_http {A} (l : list A) i e :
  PyStr.index l i = Raise e -> not_http e.
Proof. unfold PyStr.index. destruct (l !! i); by intros ?; simplify_eq. Qed.

Lemma search_result_not_http (r : QueryResult Distance) i doc_id e :
  search_result r i doc_id = Raise e -> not_http e.
Proof.
  unfold search_result, rbind.
  repeat (case_match; try (intros ?; simplify_eq; by eapply index_not_http));
    by intros ?; simplify_eq.
Qed.

Lemma search_results_not_http (r : QueryResult Distance) i ids e :
  search_results r i ids = Raise e -> not_http e.
Proof.
  revert i. induction ids as [|doc_id ids IH]; intros i; cbn; [done|].
  destruct (search_result r i doc_id) eqn:Hx; cbn.
  - destruct (search_results r (S i) ids) eqn:Hxs; cbn; [done|].
    intros ?; simplify_eq. by eapply IH.
  - intros ?; simplify_eq. by eapply search_result_not_http.
Qed.

(** In range the handler queries the store once and raises no client
    error. *)
Lemma search_in_range request w :
  1 <= req_n_results request <= 100 ->
  calls (fst (search_papers nearest request w))
  = calls w ++ [CallQuery COLLECTION [req_query request]
                          (req_n_results request)]
  /\ forall e, snd (search_papers nearest request w) = Raise e ->
               not_http e.
Proof.
  intros Hn. unfold search_papers.
  replace (req_n_results request <? 1) with false by lia.
  replace (100 <? req_n_results request) with false by lia.
  cbn [orb]. unfold bind, collection_query. cbn.
  destruct (collections w !! COLLECTION) as [col|]; cbn;
    [|split; [done|by intros ? ?; simplify_eq]].
  destruct (nearest col _ _) as [r|]; cbn;
    [|split; [done|by intros ? ?; simplify_eq]].
  split; [done|]. intros e.
  destruct (PyStr.index (res_ids r) 0) as [ids|e'] eqn:Hids; cbn.
  - destruct (search_results r 0 ids) eqn:Hxs; cbn; [done|].
    intros ?; simplify_eq. by eapply search_results_not_http.
  - intros ?; simplify_eq. by eapply index_not_http.
Qed.

Lemma search_out_of_range request w :
  req_n_results request < 1 \/ 100 < req_n_results request ->
  search_papers nearest request w
  = (w, Raise (HTTPException 400 "n_results must be between 1 and 100")).
Proof.
  intros Hn. unfold search_papers.
  destruct (req_n_results request <? 1) eqn:H1; [done|].
  destruct (100 <? req_n_results request) eqn:H2; [done|]. lia.
Qed.

(** C3. The search raises the 400 error exactly when [n_results] lies
    outside 1..100, and then the world is as it was: the store has not
    been queried. In range the store is queried once with the request's
    text and count. So 0 and 101 are refused, 1 and 100 get through to
    the store, and a request without [n_results] asks for 10. *)
Theorem search_validates_n_results request w query :
  ((exists detail,
       snd (search_papers nearest request w)
       = Raise (HTTPException 400 detail))
   <-> req_n_results request < 1 \/ 100 < req_n_results request)
  /\ (req_n_results request < 1 \/ 100 < req_n_results request ->
      search_papers nearest request w
      = (w, Raise (HTTPException 400
                     "n_results must be between 1 and 100")))
  /\ (1 <= req_n_results request <= 100 ->
      calls (fst (search_papers nearest request w))
      = calls w ++ [CallQuery COLLECTION [req_query request]
                              (req_n_results request)])
  /\ (forall n, n = 0 \/ n = 101 ->
        search_papers nearest (parse_request query (Some n)) w
        = (w, Raise (HTTPException 400
                       "n_results must be between 1 and 100")))
  /\ (forall n, n = 1 \/ n = 100 ->
        calls (fst (search_papers nearest
                      (parse_request query (Some n)) w))
        = calls w ++ [CallQuery COLLECTION [query] n])
  /\ req_n_results (parse_request query None) = 10.
Proof.
  split_and!.
  - split.
    + intros [detail Hd].
      destruct (Z.lt_ge_cases (req_n_results request) 1); [by left|].
      destruct (Z.lt_ge_cases 100 (req_n_results request)); [by right|].
      destruct (search_in_range request w ltac:(lia)) as [_ Hne].
      by destruct (Hne _ Hd).
    + intros Hn. rewrite search_out_of_range by done. by eexists.
  - apply search_out_of_range.
  - intros Hn. by apply search_in_range.
  - intros n Hn. apply search_out_of_range. cbn. lia.
  - intros n Hn.
    apply (search_in_range (parse_request query (Some n))). cbn. lia.
  - done.
Qed.

End ApiClaims.

(** ** The statements at sample inputs *)

Section Instances.

Import Sample.

Lemma sample_well_formed lines :
  Forall (fun l => l ∈ ["quantum"; "quantum_revised"; "strings"; "graphs";
                        "unknown"]) lines ->
  Forall (well_formed json_loads) lines.
Proof.
  intros H. eapply Forall_impl; [exact H|]. intros l Hl. cbn in Hl.
  repeat (apply elem_of_cons in Hl as [->|Hl]);
    [..|by apply elem_of_nil in Hl];
    (eexists; split; [reflexivity|]); by eexists _, _, _, _.
Defined.

Lemma load_papers_limit_witness :
  load_papers json_loads (data ["quantum"; "strings"; "graphs"; "torn"])
              DATA_FILE (Some 2) None
  = Ok (take 2 (qualifying json_loads None
                  ["quantum"; "strings"; "graphs"; "torn"]))
  /\ (lines_decoded json_loads
        (data ["quantum"; "strings"; "graphs"; "torn"]) DATA_FILE
        (Some 2%Z) None <= 2)%nat.
Proof.
  destruct (load_papers_limit json_loads
              (data ["quantum"; "strings"; "graphs"; "torn"]) DATA_FILE 2
              None ["quantum"; "strings"] ["graphs"; "torn"])
    as (H1 & _ & H3).
  - reflexivity.
  - repeat constructor; apply well_formed_line_ok;
      (eexists; split; [reflexivity|]); by eexists _, _, _, _.
  - vm_compute. lia.
  - split; [exact H1|exact H3].
Defined.

Lemma year_filter_excludes_witness :
  exists papers,
    load_papers json_loads (data ["quantum"; "graphs"; "unknown"; "strings"])
                DATA_FILE None (Some 2010) = Ok papers
    /\ forall p, p ∈ papers ->
         exists s y, paper_id p = JStr s
                     /\ get_year_from_arxiv_id s = Ok (Some y)
                     /\ 2010 <= y.
Proof.
  destruct (year_filter_excludes json_loads
              (data ["quantum"; "graphs"; "unknown"; "strings"]) DATA_FILE
              None 2010 ["quantum"; "graphs"; "unknown"; "strings"])
    as (Hout & _ & _ & Hret); [reflexivity|].
  destruct Hret as [papers Hp].
  { apply sample_well_formed. repeat constructor; set_solver. }
  exists papers. split; [exact Hp|]. by apply Hout.
Defined.

Lemma missing_categories_default_witness :
  load_line json_loads None "quantum"
  = Ok (Some {| paper_id := JStr "0704.0001";
                paper_title := "Quantum walks";
                paper_abstract := "We study walks.";
                paper_categories := JStr "" |}).
Proof.
  apply (missing_categories_default json_loads None "quantum"
           (fields "0704.0001" "Quantum walks" "We study walks.")
           (JStr "0704.0001") "Quantum walks" "We study walks.");
    reflexivity.
Defined.

Lemma clean_deletes_first_witness :
  (exists w1,
      main embed current json_loads DATA_FILE (args 0 true None)
           (fresh ["quantum"])
      = (w1, Raise NotFoundError)
      /\ collections w1 = collections (fresh ["quantum"])
      /\ calls w1 = [] ++ [CallDelete COLLECTION]
      /\ stdout w1
         = stdout (fst (print_summary (args 0 true None)
                          (fresh ["quantum"]))))
  /\ (exists w1,
        collections w1 = delete COLLECTION (collections Cases.ingested)
        /\ main embed current json_loads DATA_FILE (args 0 true None)
                Cases.ingested
           = bind (read_papers json_loads DATA_FILE (args 0 true None))
                  (ingest embed current) w1).
Proof.
  split.
  - destruct (clean_deletes_first embed current json_loads DATA_FILE
                (args 0 true None) (fresh ["quantum"]))
      as (_ & _ & H); [reflexivity|].
    destruct H as (_ & _ & H); [reflexivity|]. exact H.
  - destruct (clean_deletes_first embed current json_loads DATA_FILE
                (args 0 true None) Cases.ingested)
      as (_ & H & _); [reflexivity|].
    destruct H as (w1 & _ & Hcol & _ & Hmain); [reflexivity|].
    exists w1. split; [exact Hcol|exact Hmain].
Defined.



Lemma malformed_line_aborts_witness :
  snd (main embed early json_loads DATA_FILE (args 0 false None)
            (fresh ["quantum"; "torn"; "graphs"]))
  = Raise JSONDecodeError.
Proof.
  edestruct (malformed_line_aborts embed early json_loads DATA_FILE
               (args 0 false None) (fresh ["quantum"; "torn"; "graphs"])
               ["quantum"] "torn" ["graphs"])
    as (_ & H & _);
    [reflexivity|reflexivity|vm_compute; reflexivity|reflexivity|exact H].
Defined.


Lemma readd_keeps_stored_witness :
  unique_ids
    (ingestion_runs embed early json_loads DATA_FILE
       [(args 0 false None, ["quantum"]);
        (args 0 false None, ["quantum_revised"])]
       (fresh [])).
Proof.
  apply (readd_keeps_stored embed early json_loads DATA_FILE
           [(args 0 false None, ["quantum"]);
            (args 0 false None, ["quantum_revised"])]
           (fresh [])).
  intros name col H. cbn in H. by rewrite lookup_empty in H.
Defined.

(** The paper of the first run is ingested again with a changed title
    and abstract: the collection still holds one item under its id, and
    it is the first one, whichever way [add] treats a stored id. *)
Lemma readd_does_not_update :
  load_papers json_loads (data ["quantum_revised"]) DATA_FILE None None
  = Ok [{| paper_id := JStr "0704.0001";
           paper_title := "Quantum walks, revised";
           paper_abstract := "We study more walks.";
           paper_categories := JStr "" |}]
  /\ Forall
       (fun policy =>
          collections
            (ingestion_runs embed policy json_loads DATA_FILE
               [(args 0 false None, ["quantum"]);
                (args 0 false None, ["quantum_revised"])]
               (fresh []))
          !! COLLECTION
          = Some [make_item embed "0704.0001"
                    "Quantum walks We study walks."
                    {| meta_title := "Quantum walks";
                       meta_categories := JStr "" |}])
       [store SkipExisting MissingValueError;
        store RejectExisting MissingValueError;
        store SkipExisting MissingNotFound;
        store RejectExisting MissingNotFound].
Proof. split; [|repeat constructor]; vm_compute; reflexivity. Qed.

End Instances.

(** * Further properties *)

(** ** More on identifiers and years *)

Section YearRange.

Import PyStr.

Lemma digit_range a d : digit a = Some d -> 0 <= d <= 9.
Proof. intros H. apply (digit_plain _ _ H). Qed.

Lemma pow10_pos (n : nat) : 1 <= 10 ^ Z.of_nat n.
Proof. pose proof (Z.pow_pos_nonneg 10 (Z.of_nat n)). lia. Qed.

Lemma pow10_succ (n : nat) : 10 ^ Z.of_nat (S n) = 10 * 10 ^ Z.of_nat n.
Proof. rewrite Nat2Z.inj_succ, Z.pow_succ_r; lia. Qed.

(** The value read from the digits lies within what their number
    allows. *)
Lemma int_digits_bound n : forall s acc z,
  (String.length s <= n)%nat -> 0 <= acc ->
  int_digits acc s = Some z ->
  acc <= z < (acc + 1) * 10 ^ Z.of_nat (String.length s).
Proof.
  induction n as [n IH] using lt_wf_ind. intros [|a s] acc z Hn Hacc.
  { cbn. intros ?; simplify_eq. lia. }
  cbn [int_digits String.length].
  pose proof (pow10_pos (String.length s)) as Hp.
  rewrite pow10_succ.
  destruct (digit a) as [d|] eqn:Hd.
  - pose proof (digit_range _ _ Hd). intros Hz.
    cbn in Hn. apply (IH (String.length s)) in Hz; [|lia|lia|lia]. nia.
  - destruct (Ascii.eqb a "_").
    + destruct s as [|b s]; [done|].
      destruct (digit b) as [d|] eqn:Hd'; [|done].
      pose proof (digit_range _ _ Hd'). intros Hz. cbn in Hn.
      apply (IH (String.length s)) in Hz; [|lia|lia|lia].
      cbn [String.length] in *. rewrite pow10_succ in *. nia.
    + destruct (all_chars is_int_space (String a s)); [|done].
      intros ?; simplify_eq. nia.
Qed.

Lemma int_unsigned_bound s z :
  int_unsigned s = Some z -> 0 <= z < 10 ^ Z.of_nat (String.length s).
Proof.
  destruct s as [|a s]; [done|]. cbn [int_unsigned String.length].
  destruct (digit a) as [d|] eqn:Hd; [|done].
  pose proof (digit_range _ _ Hd). intros Hz.
  apply (int_digits_bound (String.length s)) in Hz; [|lia|lia].
  rewrite pow10_succ. pose proof (pow10_pos (String.length s)). nia.
Qed.

Lemma lstrip_by_length p s :
  (String.length (lstrip_by p s) <= String.length s)%nat.
Proof.
  induction s as [|a s IH]; cbn; [lia|]. destruct (p a); cbn; lia.
Qed.

Lemma slice_to_length n s : (String.length (slice_to n s) <= n)%nat.
Proof.
  revert s. induction n as [|n IH]; intros [|a s]; cbn; try lia.
  specialize (IH s). lia.
Qed.

(** A literal of at most two characters denotes a number from -9 to 99. *)
Lemma int_short s z :
  (String.length s <= 2)%nat -> int s = Ok z -> -9 <= z <= 99.
Proof.
  intros Hs. unfold int.
  pose proof (lstrip_by_length is_int_space s) as Hl.
  destruct (lstrip_by is_int_space s) as [|a t] eqn:Ht; [done|].
  cbn [String.length] in Hl.
  assert (forall r : option Z,
             (forall z', r = Some z' -> -9 <= z' <= 99) ->
             match r with Some z => Ok z | None => Raise ValueError end
             = Ok z -> -9 <= z <= 99) as Hwrap.
  { intros [z'|] Hr; [|done]. intros ?; simplify_eq. by apply Hr. }
  assert (forall z', int_unsigned t = Some z' -> 0 <= z' <= 9) as Hsigned.
  { intros z' Hz'%int_unsigned_bound.
    assert (String.length t <= 1)%nat as Hlen by lia.
    destruct t as [|b [|c t]]; cbn in *; lia. }
  assert (forall z', int_unsigned (String a t) = Some z' -> 0 <= z' <= 99)
    as Hplain.
  { intros z' Hz'%int_unsigned_bound. cbn [String.length] in Hz'.
    assert (String.length t <= 1)%nat as Hlen by lia.
    destruct t as [|b [|c t]]; cbn in *; lia. }
  destruct a as [[] [] [] [] [] [] [] []]; apply Hwrap; intros z' Hz';
    try (apply Hplain in Hz'; lia).
  - apply Hsigned in Hz'; lia.
  - destruct (int_unsigned t) as [u|] eqn:Hu; [|done]. cbn in Hz'.
    simplify_eq. specialize (Hsigned _ eq_refl). lia.
Qed.

Lemma century_range yy : -9 <= yy <= 99 -> 1991 <= century yy <= 2090.
Proof. unfold century. destruct (91 <=? yy) eqn:H; lia. Qed.

(** Whatever the identifier, a year that is derived from it lies between
    1991 and 2090. *)
Lemma year_in_range s y :
  get_year_from_arxiv_id s = Ok (Some y) -> 1991 <= y <= 2090.
Proof.
  unfold get_year_from_arxiv_id, year_of_id.
  destruct (contains "." s).
  - destruct (index (split "." s) 0) as [f|e]; cbn [rbind]; [|by destruct e].
    destruct (int (slice_to 2 f)) as [yy|e] eqn:Hyy; cbn [rbind];
      [|by destruct e].
    intros ?; simplify_eq. apply century_range.
    eapply int_short; [|exact Hyy]. apply slice_to_length.
  - destruct (contains "/" s); [|done].
    destruct (index (split "/" s) 1) as [f|e]; cbn [rbind]; [|by destruct e].
    destruct (int (slice_to 2 (slice_to 4 f))) as [yy|e] eqn:Hyy; cbn [rbind];
      [|by destruct e].
    intros ?; simplify_eq. apply century_range.
    eapply int_short; [|exact Hyy]. apply slice_to_length.
Qed.

(** X1. A year derived from an identifier lies between 1991 and 2090, and
    both ends are reached; an identifier with neither a dot nor a slash
    yields none. *)
Theorem year_range s :
  (forall y, get_year_from_arxiv_id s = Ok (Some y) -> 1991 <= y <= 2090)
  /\ (contains "." s = false -> contains "/" s = false ->
      get_year_from_arxiv_id s = Ok None)
  /\ get_year_from_arxiv_id "9107.0001" = Ok (Some 1991)
  /\ get_year_from_arxiv_id "9012.00001" = Ok (Some 2090).
Proof.
  split_and!; [apply year_in_range| |reflexivity..].
  intros H1 H2. unfold get_year_from_arxiv_id, year_of_id.
  by rewrite H1, H2.
Qed.

(** X2. The century rule on the two forms of identifier. An identifier
    that starts with two digits and holds a dot, [YYMM.NNNNN] among them,
    resolves to [1900 + YY] from 91 on and to [2000 + YY] below; so does
    [category/YYMMNNN] when neither the category nor the rest holds a
    dot. *)
Theorem year_of_forms y1 y2 d1 d2 mm rest category :
  digit y1 = Some d1 -> digit y2 = Some d2 ->
  let yy := 10 * d1 + d2 in
  0 <= yy <= 99
  /\ get_year_from_arxiv_id
       (String y1 (String y2 (mm +:+ String "." rest)))
     = Ok (Some (if 91 <=? yy then 1900 + yy else 2000 + yy))
  /\ (contains "." category = false -> contains "/" category = false ->
      contains "." rest = false ->
      get_year_from_arxiv_id
        (category +:+ String "/" (String y1 (String y2 rest)))
      = Ok (Some (if 91 <=? yy then 1900 + yy else 2000 + yy))).
Proof.
  intros H1 H2 yy.
  pose proof (digit_range _ _ H1). pose proof (digit_range _ _ H2).
  split; [subst yy; lia|]. split.
  - apply (year_new_form _ _ _ _ _ H1 H2).
    rewrite contains_app. cbn. by rewrite orb_true_r.
  - intros Hc1 Hc2 Hr. by apply year_old_form.
Qed.

End YearRange.

(** ** More on the loader *)

Section TextFacts.

Import PyStr.

Lemma all_chars_rstrip p s : all_chars p (rstrip_by p s) = all_chars p s.
Proof.
  induction s as [|a s IH]; [done|]. cbn [rstrip_by].
  destruct (all_chars p (String a s)) eqn:H; [done|].
  cbn in *. by rewrite IH.
Qed.

Lemma rstrip_by_idem p s : rstrip_by p (rstrip_by p s) = rstrip_by p s.
Proof.
  induction s as [|a s IH]; [done|]. cbn [rstrip_by].
  destruct (all_chars p (String a s)) eqn:H; [done|].
  cbn [rstrip_by]. cbn [all_chars] in *.
  by rewrite all_chars_rstrip, H, IH.
Qed.

Lemma lstrip_by_head p s :
  match lstrip_by p s with
  | EmptyString => True
  | String a _ => p a = false
  end.
Proof.
  induction s as [|a s IH]; cbn; [done|]. by destruct (p a) eqn:H.
Qed.

Lemma lstrip_rstrip_lstrip p s :
  lstrip_by p (rstrip_by p (lstrip_by p s)) = rstrip_by p (lstrip_by p s).
Proof.
  pose proof (lstrip_by_head p s) as H.
  destruct (lstrip_by p s) as [|a t]; [done|]. cbn [rstrip_by all_chars].
  rewrite H. cbn. by rewrite H.
Qed.

(** What [strip] returns has nothing left to strip. *)
Lemma strip_idem s : strip (strip s) = strip s.
Proof.
  unfold strip. by rewrite lstrip_rstrip_lstrip, rstrip_by_idem.
Qed.

Lemma contains_lstrip p c s :
  contains c (lstrip_by p s) = true -> contains c s = true.
Proof.
  induction s as [|a s IH]; cbn; [done|].
  destruct (p a); cbn; destruct (Ascii.eqb a c); auto.
Qed.

Lemma contains_rstrip p c s :
  contains c (rstrip_by p s) = true -> contains c s = true.
Proof.
  induction s as [|a s IH]; [done|]. cbn [rstrip_by].
  destruct (all_chars p (String a s)); [done|]. cbn.
  destruct (Ascii.eqb a c); auto.
Qed.

Lemma contains_replace a b s :
  a <> b -> contains a (replace a b s) = false.
Proof.
  intros Hab. induction s as [|c s IH]; cbn; [done|].
  destruct (Ascii.eqb c a) eqn:Hc.
  - destruct (Ascii.eqb b a) eqn:Hb; [|done].
    apply Ascii.eqb_eq in Hb. congruence.
  - by rewrite Hc.
Qed.

Lemma clean_text_clean v s :
  clean_text v = Ok s -> strip s = s /\ contains "010" s = false.
Proof.
  destruct v; cbn; try done. intros ?; simplify_eq. split.
  - apply strip_idem.
  - destruct (contains "010" (strip _)) eqn:H; [|done].
    unfold strip in H. apply contains_rstrip, contains_lstrip in H.
    by rewrite contains_replace in H.
Qed.

Lemma make_paper_clean record p :
  make_paper record = Ok p ->
  (strip (paper_title p) = paper_title p
   /\ contains "010" (paper_title p) = false)
  /\ (strip (paper_abstract p) = paper_abstract p
      /\ contains "010" (paper_abstract p) = false).
Proof.
  unfold make_paper.
  destruct (getitem record "id") as [i|]; cbn [rbind]; [|done].
  destruct (getitem record "title") as [t|]; cbn [rbind]; [|done].
  destruct (clean_text t) as [t'|] eqn:Ht; cbn [rbind]; [|done].
  destruct (getitem record "abstract") as [a|]; cbn [rbind]; [|done].
  destruct (clean_text a) as [a'|] eqn:Ha; cbn [rbind]; [|done].
  destruct (dict_get record "categories" (JStr "")); cbn [rbind]; [|done].
  intros ?; simplify_eq. cbn. split; by eapply clean_text_clean.
Qed.

Lemma load_line_paper json_loads min_year line p :
  load_line json_loads min_year line = Ok (Some p) ->
  exists record, json_loads line = Some record /\ make_paper record = Ok p.
Proof.
  unfold load_line. destruct (json_loads line) as [record|]; [|done].
  destruct (passes_year min_year record) as [[]|]; cbn; try done.
  destruct (make_paper record) as [q|] eqn:Hq; cbn; [|done].
  intros ?; simplify_eq. by exists record.
Qed.

(** X3. Every title and abstract the loader returns is free of newlines
    and has no white space left to strip at either end. *)
Theorem loaded_text_is_clean json_loads files path limit min_year papers :
  load_papers json_loads files path limit min_year = Ok papers ->
  Forall (fun p =>
            strip (paper_title p) = paper_title p
            /\ contains "010" (paper_title p) = false
            /\ strip (paper_abstract p) = paper_abstract p
            /\ contains "010" (paper_abstract p) = false) papers.
Proof.
  unfold load_papers. destruct (files !! path) as [lines|]; [|done].
  destruct (load_loop json_loads limit min_year lines [] 0) as [n r] eqn:Hl.
  cbn. intros ->.
  apply load_loop_origin in Hl as (new & -> & Hnew). cbn.
  eapply Forall_impl; [exact Hnew|]. intros p (line & _ & Hp).
  apply load_line_paper in Hp as (record & _ & Hp).
  apply make_paper_clean in Hp. tauto.
Qed.

End TextFacts.

Section LimitFacts.

Variable json_loads : string -> option json.

(** The loop never returns more papers than the limit, unless it was
    handed more to begin with. *)
Lemma load_loop_capped l min_year lines acc n n' papers :
  load_loop json_loads (Some l) min_year lines acc n = (n', Ok papers) ->
  (length papers <= Nat.max (length acc) (Z.to_nat l))%nat.
Proof.
  revert acc n. induction lines as [|line lines IH]; intros acc n; cbn.
  - intros ?; simplify_eq. lia.
  - destruct (l <=? Z.of_nat (length acc)) eqn:Hr.
    { intros ?; simplify_eq. lia. }
    destruct (load_line json_loads min_year line) as [[p|]|]; [| |done];
      intros H%IH; [|lia].
    rewrite length_app in H. cbn in H. lia.
Qed.

(** On lines it gets through, the loop returns the first [l] of what was
    there and what qualifies. *)
Lemma load_loop_take l min_year lines acc n :
  Forall (line_ok json_loads min_year) lines ->
  Z.of_nat (length acc) <= l ->
  snd (load_loop json_loads (Some l) min_year lines acc n)
  = Ok (take (Z.to_nat l) (acc ++ qualifying json_loads min_year lines)).
Proof.
  intros H. revert acc n.
  induction H as [|line lines [r Hr] _ IH]; intros acc n Hacc.
  - cbn. rewrite app_nil_r, take_ge by lia. done.
  - cbn [load_loop limit_reached].
    destruct (l <=? Z.of_nat (length acc)) eqn:Hreach.
    + cbn. by rewrite take_app_length' by lia.
    + unfold qualifying. cbn [omap list_omap]. rewrite Hr.
      destruct r as [p|].
      * rewrite IH by (rewrite length_app; cbn; lia).
        by rewrite <- app_assoc.
      * by rewrite IH by lia.
Qed.

(** X4. Loading with a limit never returns more papers than the limit; and
    when the loop gets through every line of the file, it returns the
    first [limit] qualifying records, or all of them when there are
    fewer. *)
Theorem load_papers_capped files path l min_year lines :
  files !! path = Some lines ->
  (forall papers,
      load_papers json_loads files path (Some l) min_year = Ok papers ->
      (length papers <= Z.to_nat l)%nat)
  /\ (Forall (line_ok json_loads min_year) lines ->
      load_papers json_loads files path (Some l) min_year
      = Ok (take (Z.to_nat l) (qualifying json_loads min_year lines))).
Proof.
  intros Hf. unfold load_papers. rewrite Hf. split.
  - intros papers Hp.
    destruct (load_loop json_loads (Some l) min_year lines [] 0)
      as [n' r] eqn:Hl.
    cbn in Hp. subst r. apply load_loop_capped in Hl. cbn in Hl. lia.
  - intros Hok. destruct (Z.le_gt_cases 0 l).
    + by rewrite load_loop_take.
    + replace (Z.to_nat l) with 0%nat by lia. cbn.
      destruct lines; [done|]. cbn -[Z.leb Z.of_nat].
      by rewrite (proj2 (Z.leb_le l (Z.of_nat 0))) by (cbn; lia).
Qed.

(** The count of decoded lines grows by at most one per line. *)
Lemma load_loop_count limit min_year lines acc n n' r :
  load_loop json_loads limit min_year lines acc n = (n', r) ->
  (n <= n' <= n + length lines)%nat.
Proof.
  revert acc n. induction lines as [|line lines IH]; intros acc n; cbn.
  - intros ?; simplify_eq. lia.
  - destruct (limit_reached limit acc); [intros ?; simplify_eq; lia|].
    destruct (load_line json_loads min_year line) as [[p|]|];
      [intros H%IH; lia|intros H%IH; lia|intros ?; simplify_eq; lia].
Qed.

(** X5. The first line whose pass through the loop body raises ends the
    load with that exception; the lines after it are not decoded. *)
Theorem load_papers_first_error files path limit min_year pre bad rest n
    papers e :
  files !! path = Some (pre ++ bad :: rest) ->
  load_loop json_loads limit min_year pre [] 0 = (n, Ok papers) ->
  limit_reached limit papers = false ->
  load_line json_loads min_year bad = Raise e ->
  load_papers json_loads files path limit min_year = Raise e
  /\ lines_decoded json_loads files path limit min_year = S n
  /\ (n <= length pre)%nat.
Proof.
  intros Hf Hpre Hlim Hbad. unfold load_papers, lines_decoded. rewrite Hf.
  rewrite (load_loop_app _ _ _ _ _ _ _ _ _ Hpre Hlim). cbn.
  rewrite Hlim, Hbad. split_and!; [done..|].
  apply load_loop_count in Hpre. lia.
Qed.

End LimitFacts.

Section RecordFacts.

Variable json_loads : string -> option json.

(** X6. What the loop body does with a line that decodes to something
    other than a complete record. A value that is no dict is a
    [TypeError], a dict without ["id"] a [KeyError]. A dict the year test
    lets through raises [KeyError] when ["title"] or ["abstract"] is
    missing and [AttributeError] when one of them is no [str]; a dict the
    year test rejects is skipped before either is looked at. *)
Theorem incomplete_record min_year line v :
  json_loads line = Some v ->
  ((forall d, v <> JObj d) ->
   load_line json_loads min_year line = Raise TypeError)
  /\ (forall d, v = JObj d -> d !! "id" = None ->
        load_line json_loads min_year line = Raise KeyError)
  /\ (passes_year min_year v = Ok false ->
      load_line json_loads min_year line = Ok None)
  /\ (forall d i, v = JObj d -> d !! "id" = Some i ->
        passes_year min_year v = Ok true ->
        (d !! "title" = None ->
         load_line json_loads min_year line = Raise KeyError)
        /\ (forall t, d !! "title" = Some t -> (forall s, t <> JStr s) ->
              load_line json_loads min_year line = Raise AttributeError)
        /\ (forall s, d !! "title" = Some (JStr s) ->
              d !! "abstract" = None ->
              load_line json_loads min_year line = Raise KeyError)
        /\ (forall s a, d !! "title" = Some (JStr s) ->
              d !! "abstract" = Some a -> (forall s', a <> JStr s') ->
              load_line json_loads min_year line = Raise AttributeError)).
Proof.
  intros Hv. unfold load_line. rewrite Hv. split_and!.
  - intros Hnd. destruct v; try (by destruct min_year).
    by destruct (Hnd d).
  - intros d -> Hi. unfold passes_year, make_paper.
    destruct min_year; cbn; by rewrite Hi.
  - by intros ->.
  - intros d i -> Hi ->. cbn [rbind]. unfold make_paper. cbn -[clean_text].
    rewrite Hi. cbn -[clean_text]. split_and!.
    + by intros ->.
    + intros t -> Ht. cbn -[clean_text].
      destruct t; try done. by destruct (Ht s).
    + intros s -> Ha. cbn. by rewrite Ha.
    + intros s a -> -> Ha. cbn -[clean_text].
      destruct a; try done. by destruct (Ha s0).
Qed.

(** X7. An identifier that is no [str]. Without a year filter the record is
    loaded with the identifier as it is. Under a year filter a number, a
    boolean or [null] is a [TypeError]; a list or dict is an
    [AttributeError] when ["."] or ["/"] is among its elements or keys, and
    makes the record be skipped when neither is. *)
Theorem non_string_id m line d i t a :
  json_loads line = Some (JObj d) ->
  d !! "id" = Some i ->
  d !! "title" = Some (JStr t) ->
  d !! "abstract" = Some (JStr a) ->
  (forall s, i <> JStr s) ->
  (exists p, load_line json_loads None line = Ok (Some p) /\ paper_id p = i)
  /\ (member "." i = None ->
      load_line json_loads (Some m) line = Raise TypeError)
  /\ (member "." i = Some true \/ member "/" i = Some true ->
      load_line json_loads (Some m) line = Raise AttributeError)
  /\ (member "." i = Some false -> member "/" i = Some false ->
      load_line json_loads (Some m) line = Ok None).
Proof.
  intros Hl Hi Ht Ha Hs. unfold load_line. rewrite Hl. split_and!.
  - unfold make_paper. cbn. rewrite Hi, Ht, Ha. cbn. by eexists.
  - unfold passes_year. cbn. rewrite Hi. cbn.
    destruct i; cbn; try done. by destruct (Hs s).
  - unfold passes_year. cbn. rewrite Hi. cbn.
    destruct i; cbn; try (by intros [|]); try (by destruct (Hs s)).
    + intros [H|H]; simplify_eq; rewrite ?H; [done|].
      by destruct (existsb (eq_str ".") l).
    + intros [H|H]; simplify_eq; rewrite ?H; [done|].
      by destruct (bool_decide (is_Some (d0 !! "."))).
  - unfold passes_year. cbn. rewrite Hi. cbn.
    destruct i; cbn; try done; try (by destruct (Hs s)).
    + by intros ?Hd ?Hs'; simplify_eq; rewrite Hd, Hs'.
    + by intros ?Hd ?Hs'; simplify_eq; rewrite Hd, Hs'.
Qed.

End RecordFacts.

(** ** More on ingestion *)

Section IngestFacts.

Context {Embedding : Type}.
Variable embed : string -> Embedding.
Variable policy : store_policy.

Implicit Types (w : World Embedding) (col : list (Item Embedding)).

(** X8. Ingesting papers whose ids are [str]s, differ from each other and
    are not stored yet, and whose metadata the store accepts, goes
    through: the collection, created when it was missing, gains exactly
    one item per paper, in the order of the papers; the store sees one
    [get_or_create], one [add] per batch and one [count]; and the count
    printed last is the old size plus the number of papers. *)
Theorem ingest_stores_all papers w :
  string_ids papers ->
  NoDup (ids_of (paper_items embed papers)) ->
  accepted policy papers = true ->
  (forall col i,
      collections w !! COLLECTION = Some col ->
      i ∈ ids_of (paper_items embed papers) -> i ∉ ids_of col) ->
  exists w',
    ingest embed policy papers w = (w', Ok tt)
    /\ collections w' !! COLLECTION
       = Some (default [] (collections w !! COLLECTION)
               ++ paper_items embed papers)
    /\ length (paper_items embed papers) = length papers
    /\ calls w'
       = calls w ++ CallGetOrCreate COLLECTION
                 :: (add_call COLLECTION <$> batches papers)
                 ++ [CallCount COLLECTION]
    /\ last (stdout w')
       = Some ("Collection count: "
               +:+ pretty (length (default [] (collections w !! COLLECTION))
                           + length papers)%nat).
Proof.
  intros Hs Hnd Ha Hfresh.
  destruct (ingest_fresh embed policy papers w Hs Hnd Ha Hfresh)
    as (w' & Hrun & _ & Hcol & Hlen & Hcalls & Hout).
  exists w'. split_and!; [done| |done..|].
  - rewrite Hcol. apply lookup_insert_eq.
  - rewrite Hout. by rewrite (last_app_cons _ _ "Generating embeddings...").
Qed.

End IngestFacts.

Section CleanRun.

Context {Embedding : Type}.
Variable embed : string -> Embedding.
Variable policy : store_policy.
Variable json_loads : string -> option json.
Variable DATA_FILE : string.

Implicit Types (w : World Embedding).

(** X9. A run with the clean flag whose cleaning goes through, over
    papers whose ids are [str]s and differ from each other and whose
    metadata the store accepts, ends well, and leaves in the collection
    exactly one item per loaded paper, in file order, whatever the
    collection held before; the last line printed is that count. *)
Theorem clean_run_stores_exactly args w papers :
  clean args = true ->
  clean_raises policy args w = false ->
  load_papers json_loads (files w) DATA_FILE (effective_limit args)
              (year args) = Ok papers ->
  string_ids papers ->
  NoDup (ids_of (paper_items embed papers)) ->
  accepted policy papers = true ->
  exists w',
    main embed policy json_loads DATA_FILE args w = (w', Ok tt)
    /\ collections w' !! COLLECTION = Some (paper_items embed papers)
    /\ length (paper_items embed papers) = length papers
    /\ last (stdout w')
       = Some ("Collection count: " +:+ pretty (length papers)).
Proof.
  intros Hclean Hr Hload Hs Hnd Ha.
  destruct (main_reaches_ingest embed policy json_loads DATA_FILE
              args w papers Hr Hload) as (w2 & Hmain & _ & Hcol2 & _).
  rewrite Hclean in Hcol2.
  assert (collections w2 !! COLLECTION = None) as Hnone.
  { rewrite Hcol2. apply lookup_delete_eq. }
  destruct (ingest_fresh embed policy papers w2 Hs Hnd Ha)
    as (w3 & Hi & _ & Hcol3 & Hlen & _ & Hout).
  { intros col i Hc. congruence. }
  exists w3. rewrite Hmain, Hi. split_and!; [done| |done|].
  - rewrite Hcol3, Hnone. cbn. apply lookup_insert_eq.
  - rewrite Hout, Hnone. cbn -[pretty].
    rewrite (last_app_cons _ _ "Generating embeddings...").  cbn -[pretty].
    done.
Qed.

End CleanRun.

Section Rerun.

Context {Embedding : Type}.
Variable embed : string -> Embedding.
Variable policy : store_policy.

Implicit Types (w : World Embedding) (col : list (Item Embedding)).

Lemma filter_drops_all {A} (P : A -> Prop) `{!forall x, Decision (P x)}
    (l : list A) :
  Forall (fun x => ~ P x) l -> filter P l = [].
Proof.
  induction 1 as [|x l Hx _ IH]; [done|].
  by rewrite filter_cons, decide_False.
Qed.

(** Under the skipping [add], a batch whose ids are all stored and whose
    metadata are accepted changes nothing. *)
Lemma add_items_stored batch col :
  existing policy = SkipExisting ->
  string_ids batch ->
  NoDup (ids_of (paper_items embed batch)) ->
  accepted policy batch = true ->
  (forall i, i ∈ ids_of (paper_items embed batch) -> i ∈ ids_of col) ->
  add_items embed policy (paper_id <$> batch)
            (embedding_text <$> batch) (metadata_of <$> batch) col
  = Ok col.
Proof.
  intros Hskip Hs Hnd Ha Hin.
  destruct (paper_items_made embed batch Hs) as [Hm Hi].
  unfold add_items. rewrite Hm, bool_decide_eq_true_2 by done.
  rewrite accepted_fmap, Ha, Hi, Hskip.
  rewrite filter_drops_all; [by rewrite app_nil_r|].
  apply Forall_forall. intros it Hit Hst. apply stored_false in Hst.
  apply Hst, Hin. unfold ids_of. apply list_elem_of_fmap. by exists it.
Qed.

Lemma for_each_add_stored c bs : forall col w,
  existing policy = SkipExisting ->
  collections w !! c = Some col ->
  Forall (fun b => string_ids b /\ NoDup (ids_of (paper_items embed b))
                   /\ accepted policy b = true
                   /\ forall i, i ∈ ids_of (paper_items embed b) ->
                                i ∈ ids_of col) bs ->
  exists w',
    for_each bs (add_batch embed policy c) w = (w', Ok tt)
    /\ collections w' = collections w /\ files w' = files w
    /\ stdout w' = stdout w.
Proof.
  induction bs as [|b bs IH]; intros col w Hskip Hc Hbs.
  - by exists w.
  - inv Hbs. destruct H1 as (Hs & Hnd & Ha & Hin).
    assert (add_batch embed policy c b w
            = (set_collections (<[c := col]> (collections w))
                               (log (add_call c b) w), Ok tt)) as Hb.
    { unfold add_batch, collection_add, add_call. cbn [collections log].
      by rewrite Hc, add_items_stored. }
    edestruct (IH col (set_collections (<[c := col]> (collections w))
                                       (log (add_call c b) w)))
      as (w' & Hrun & Hcol' & Hf' & Ho');
      [done|cbn; apply lookup_insert_eq|done|].
    exists w'. cbn [for_each]. unfold bind. rewrite Hb, Hrun.
    cbn in *. split_and!; try done. by rewrite Hcol', insert_id.
Qed.

Lemma batch_sublist (papers : list Paper) b :
  b ∈ batches papers -> b `sublist_of` papers.
Proof.
  intros [i Hi]%list_elem_of_lookup. apply batches_lookup in Hi as [_ ->].
  etrans; [apply sublist_take|apply sublist_drop].
Qed.

Lemma paper_items_sublist (b papers : list Paper) :
  b `sublist_of` papers ->
  paper_items embed b `sublist_of` paper_items embed papers.
Proof.
  unfold paper_items. induction 1 as [|p l1 l2 _ IH|p l1 l2 _ IH]; cbn.
  - done.
  - destruct (paper_item embed p); [by apply sublist_skip|done].
  - destruct (paper_item embed p); [by apply sublist_cons|done].
Qed.

(** X10. Ingesting, with the [add] that skips stored ids, papers that are
    all stored already and whose metadata the store accepts goes through
    and leaves every collection as it was; the count printed last is the
    size the collection had. *)
Theorem ingest_again_adds_nothing papers w col :
  existing policy = SkipExisting ->
  collections w !! COLLECTION = Some col ->
  string_ids papers ->
  NoDup (ids_of (paper_items embed papers)) ->
  accepted policy papers = true ->
  (forall i, i ∈ ids_of (paper_items embed papers) -> i ∈ ids_of col) ->
  exists w',
    ingest embed policy papers w = (w', Ok tt)
    /\ collections w' = collections w
    /\ last (stdout w') = Some ("Collection count: " +:+ pretty (length col)).
Proof.
  intros Hskip Hc Hs Hnd Ha Hin.
  set (w0 := log (CallGetOrCreate COLLECTION) w).
  set (w1 := fst (print "Generating embeddings..." w0)).
  destruct (for_each_add_stored COLLECTION (batches papers) col w1)
    as (w2 & Hrun & Hcol2 & _ & Ho2); [done|done| |].
  { apply Forall_forall. intros b Hb%batch_sublist.
    pose proof (paper_items_sublist _ _ Hb) as Hsub. split_and!.
    - unfold string_ids in *. rewrite Forall_forall in *. intros p Hp.
      apply Hs. by eapply elem_of_sublist.
    - eapply sublist_NoDup; [exact Hnd|]. by apply fmap_sublist.
    - by eapply accepted_sublist.
    - intros i Hi. apply Hin. eapply elem_of_sublist; [exact Hi|].
      by apply fmap_sublist. }
  assert (get_or_create_collection COLLECTION w = (w0, Ok COLLECTION))
    as Hg.
  { unfold get_or_create_collection. cbn [collections log]. by rewrite Hc. }
  eexists. unfold ingest, bind. rewrite Hg.
  change (print "Generating embeddings..." w0) with (w1, @Ok unit tt).
  cbn iota beta. rewrite Hrun. cbn iota beta.
  unfold print at 1, collection_count. cbn -[pretty batches].
  rewrite Hcol2. subst w1 w0. cbn -[pretty batches] in *. rewrite Hc.
  cbn -[pretty batches]. split; [reflexivity|].
  split; cbn -[pretty batches]; [done|]. by rewrite last_snoc.
Qed.

End Rerun.

Section ConfinedFacts.

Context {Embedding : Type}.
Variable embed : string -> Embedding.
Variable policy : store_policy.
Variable json_loads : string -> option json.
Variable DATA_FILE : string.

Implicit Types (w : World Embedding).

#[export] Instance confined_preorder : PreOrder (@confined Embedding).
Proof.
  split.
  - intros w. split_and!; [done..|]. exists []. by rewrite app_nil_r.
  - intros w1 w2 w3 (Hf1 & Hc1 & [o1 Ho1]) (Hf2 & Hc2 & [o2 Ho2]).
    split_and!; [congruence| |].
    + intros name Hn. by rewrite Hc2, Hc1.
    + exists (o1 ++ o2). by rewrite Ho2, Ho1, app_assoc.
Qed.

Lemma confined_here w w' :
  files w' = files w -> stdout w' = stdout w ->
  (forall name, name <> COLLECTION ->
      collections w' !! name = collections w !! name) ->
  confined w w'.
Proof.
  intros Hf Ho Hc. split_and!; [done..|]. exists []. by rewrite app_nil_r.
Qed.

Lemma print_confined line :
  preserves confined (print (Embedding := Embedding) line).
Proof. intros w. split_and!; [done..|]. by eexists. Qed.

Lemma delete_collection_confined :
  preserves confined
    (delete_collection (Embedding := Embedding) policy COLLECTION).
Proof.
  intros w. unfold delete_collection. cbn.
  destruct (collections w !! COLLECTION); cbn; apply confined_here;
    try done.
  intros name Hn. cbn. by rewrite lookup_delete_ne.
Qed.

Lemma get_or_create_confined :
  preserves confined
    (get_or_create_collection (Embedding := Embedding) COLLECTION).
Proof.
  intros w. unfold get_or_create_collection. cbn.
  destruct (collections w !! COLLECTION); cbn; apply confined_here;
    try done.
  intros name Hn. cbn. by rewrite lookup_insert_ne.
Qed.

Lemma collection_add_confined documents ids metadatas :
  preserves confined
    (collection_add embed policy COLLECTION documents ids metadatas).
Proof.
  intros w. unfold collection_add. cbn.
  destruct (collections w !! COLLECTION) as [col|]; cbn;
    [|by apply confined_here].
  destruct (add_items _ _ _ _ _ _); cbn; apply confined_here; try done.
  intros name Hn. cbn. by rewrite lookup_insert_ne.
Qed.

Lemma collection_count_confined :
  preserves confined (collection_count (Embedding := Embedding) COLLECTION).
Proof.
  intros w. unfold collection_count. cbn.
  destruct (collections w !! COLLECTION); cbn; by apply confined_here.
Qed.

Lemma preserves_bind_result {A B} (R : relation (World Embedding))
    `{!PreOrder R} (Q : A -> Prop) (m : M Embedding A)
    (k : A -> M Embedding B) :
  (forall w w' a, m w = (w', Ok a) -> Q a) ->
  preserves R m -> (forall a, Q a -> preserves R (k a)) ->
  preserves R (bind m k).
Proof.
  intros HQ Hm Hk w. unfold bind. specialize (Hm w). specialize (HQ w).
  destruct (m w) as [w' [a|e]]; cbn in *; [|done].
  etrans; [exact Hm|]. apply Hk. by eapply HQ.
Qed.

Lemma get_or_create_returns name w w' c :
  get_or_create_collection (Embedding := Embedding) name w = (w', Ok c) ->
  c = name.
Proof.
  unfold get_or_create_collection. cbn.
  destruct (collections w !! name); by intros ?; simplify_eq.
Qed.

(** X14. A run of the ingestion script, however it ends, leaves the files
    as they were, leaves every collection other than [arxiv_papers] as it
    was, and only adds lines to the output. *)
Theorem main_is_confined args w :
  files (fst (main embed policy json_loads DATA_FILE args w)) = files w
  /\ (forall name, name <> COLLECTION ->
        collections (fst (main embed policy json_loads DATA_FILE args w))
        !! name = collections w !! name)
  /\ exists out,
       stdout (fst (main embed policy json_loads DATA_FILE args w))
       = stdout w ++ out.
Proof.
  revert w. change (preserves confined
                      (main embed policy json_loads DATA_FILE args)).
  unfold main.
  apply preserves_bind; [apply _| |intros _].
  { unfold print_summary.
    repeat (apply preserves_bind; [apply _|apply print_confined|intros _]).
    apply print_confined. }
  apply preserves_bind; [apply _| |intros _].
  { unfold clean_collection. destruct (clean args).
    - apply preserves_try; [apply _| |apply print_confined].
      apply preserves_bind; [apply _| |intros _; apply print_confined].
      apply delete_collection_confined.
    - apply preserves_ret, _. }
  apply preserves_bind; [apply _| |intros papers].
  { unfold read_papers.
    apply preserves_bind; [apply _|apply print_confined|intros _].
    apply preserves_bind; [apply _| |intros papers].
    { apply (preserves_lift _
               (fun w => load_papers json_loads (files w) DATA_FILE _ _)). }
    apply preserves_bind; [apply _|apply print_confined|intros _].
    apply preserves_ret, _. }
  unfold ingest.
  apply (preserves_bind_result _ (fun c => c = COLLECTION));
    [apply get_or_create_returns|apply get_or_create_confined|intros c ->].
  apply preserves_bind; [apply _|apply print_confined|intros _].
  apply preserves_bind; [apply _| |intros _].
  { apply preserves_for_each; [apply _|]. intros b.
    apply collection_add_confined. }
  apply preserves_bind; [apply _|apply print_confined|intros _].
  apply preserves_bind; [apply _|apply collection_count_confined|intros n].
  apply print_confined.
Qed.

End ConfinedFacts.

Section YearZero.

Context {Embedding : Type}.
Variable json_loads : string -> option json.

(** X15. A minimum year of 1991 or less lets through every record whose
    identifier resolves, and still leaves out the ones whose identifier
    does not. [--year 0] is such a filter, although the summary then
    prints the year as ['any'], as it does without the option. *)
Theorem early_year_drops_unresolved args (w : World Embedding) m line d s t a :
  year args = Some m ->
  m <= 1991 ->
  json_loads line = Some (JObj d) ->
  d !! "id" = Some (JStr s) ->
  d !! "title" = Some (JStr t) ->
  d !! "abstract" = Some (JStr a) ->
  (get_year_from_arxiv_id s = Ok None ->
   load_line json_loads (year args) line = Ok None
   /\ exists p, load_line json_loads None line = Ok (Some p))
  /\ (forall y, get_year_from_arxiv_id s = Ok (Some y) ->
        load_line json_loads (year args) line
        = load_line json_loads None line)
  /\ (m = 0 ->
      print_summary args w
      = print_summary
          {| limit := limit args; clean := clean args; year := None |} w).
Proof.
  intros Hy Hm Hl Hi Ht Ha. rewrite Hy. unfold load_line. rewrite Hl.
  unfold passes_year, make_paper. cbn. rewrite Hi, Ht, Ha. cbn.
  split_and!.
  - intros ->. cbn. split; [done|by eexists].
  - intros y Hs. rewrite Hs. cbn.
    apply year_in_range in Hs. by replace (y <? m) with false by lia.
  - intros ->. unfold print_summary. by rewrite Hy.
Qed.

End YearZero.

Section BatchShape.

(** X16. There are as many batches as hundreds in the number of papers,
    rounded up; the batch at position [i] holds the papers from [100 * i]
    on, a hundred of them or as many as are left: every batch but the last
    holds exactly a hundred, and none is empty. *)
Theorem batches_shape papers :
  length (batches papers) = ((length papers + 99) / 100)%nat
  /\ forall i b, batches papers !! i = Some b ->
       length b = Nat.min 100 (length papers - i * 100)
       /\ (1 <= length b <= 100)%nat
       /\ ((S i < length (batches papers))%nat -> length b = 100%nat).
Proof.
  assert (length (batches papers) = ((length papers + 99) / 100)%nat) as Hlen.
  { unfold batches, py_range. rewrite !length_fmap, length_seq.
    unfold BATCH_SIZE. f_equal. lia. }
  split; [done|]. intros i b Hb.
  assert (is_Some (batches papers !! i)) as Hi by eauto.
  apply lookup_lt_is_Some in Hi.
  apply batches_lookup in Hb as [Hlt ->]. unfold BATCH_SIZE in *.
  rewrite length_take, length_drop. split; [done|]. split; [lia|].
  intros HS.
  assert (is_Some (batches papers !! S i)) as [b' Hb'].
  { by apply lookup_lt_is_Some. }
  apply batches_lookup in Hb' as [Hlt' _]. unfold BATCH_SIZE in *. lia.
Qed.

End BatchShape.

(** ** More on the query service *)

Section ServiceFacts.

Context {Embedding Distance : Type}.
Variable nearest :
  list (Item Embedding) -> list string -> Z -> option (QueryResult Distance).

Implicit Types (w : World Embedding).

(** X11. The query service only reads: a search or a health check leaves
    the collections, the files and the output as they were, and makes at
    most one call to the store. *)
Theorem service_reads_only request w :
  (collections (fst (search_papers nearest request w)) = collections w
   /\ files (fst (search_papers nearest request w)) = files w
   /\ stdout (fst (search_papers nearest request w)) = stdout w
   /\ (calls (fst (search_papers nearest request w)) = calls w
       \/ calls (fst (search_papers nearest request w))
          = calls w ++ [CallQuery COLLECTION [req_query request]
                                  (req_n_results request)]))
  /\ (collections (fst (health_check w)) = collections w
      /\ files (fst (health_check w)) = files w
      /\ stdout (fst (health_check w)) = stdout w
      /\ calls (fst (health_check w)) = calls w ++ [CallCount COLLECTION]).
Proof.
  split.
  - unfold search_papers.
    destruct ((req_n_results request <? 1) || (100 <? req_n_results request));
      [cbn; tauto|].
    unfold bind, collection_query, lift. cbn.
    destruct (collections w !! COLLECTION) as [col|]; cbn; [|tauto].
    destruct (nearest col _ _) as [r|]; cbn; tauto.
  - unfold health_check, bind, collection_count, ret. cbn.
    destruct (collections w !! COLLECTION); cbn; tauto.
Qed.

Lemma index_ok {A} (l : list A) i x : PyStr.index l i = Ok x -> l !! i = Some x.
Proof. unfold PyStr.index. destruct (l !! i); by intros ?; simplify_eq. Qed.

Lemma search_result_ok (r : QueryResult Distance) i doc_id x :
  search_result r i doc_id = Ok x ->
  sr_id x = doc_id
  /\ exists ms ds m d,
       res_metadatas r !! 0%nat = Some ms /\ ms !! i = Some m
       /\ res_distances r !! 0%nat = Some ds /\ ds !! i = Some d
       /\ sr_title x = meta_title m
       /\ meta_categories m = JStr (sr_categories x)
       /\ sr_distance x = d.
Proof.
  unfold search_result.
  destruct (PyStr.index (res_metadatas r) 0) as [ms|] eqn:Hms; [|done].
  cbn [rbind].
  destruct (PyStr.index ms i) as [m|] eqn:Hm; [|done]. cbn [rbind].
  destruct (PyStr.index (res_distances r) 0) as [ds|] eqn:Hds; [|done].
  cbn [rbind].
  destruct (PyStr.index ds i) as [d|] eqn:Hd; [|done]. cbn [rbind].
  destruct (meta_categories m) eqn:Hc; try done.
  intros ?; simplify_eq. cbn. split; [done|].
  exists ms, ds, m, d. by repeat split; try apply index_ok.
Qed.

(** The results of the loop from position [i] on: one per id, in order,
    each with the metadata and the distance at its own position. *)
Lemma search_results_ok (r : QueryResult Distance) ids : forall i xs,
  search_results r i ids = Ok xs ->
  sr_id <$> xs = ids
  /\ forall k x, xs !! k = Some x ->
       exists ms ds m d,
         res_metadatas r !! 0%nat = Some ms /\ ms !! (i + k)%nat = Some m
         /\ res_distances r !! 0%nat = Some ds /\ ds !! (i + k)%nat = Some d
         /\ sr_title x = meta_title m
         /\ meta_categories m = JStr (sr_categories x)
         /\ sr_distance x = d.
Proof.
  induction ids as [|doc_id ids IH]; intros i xs; cbn.
  - intros ?; simplify_eq. split; [done|]. intros k x Hk.
    by rewrite lookup_nil in Hk.
  - destruct (search_result r i doc_id) as [x|] eqn:Hx; [|done]. cbn.
    destruct (search_results r (S i) ids) as [xs'|] eqn:Hxs; [|done]. cbn.
    intros ?; simplify_eq.
    apply search_result_ok in Hx as [Hid Hx].
    apply IH in Hxs as [Hids Hxs]. split; [cbn; congruence|].
    intros [|k] y Hy; cbn in Hy; simplify_eq.
    + by rewrite Nat.add_0_r.
    + replace (i + S k)%nat with (S i + k)%nat by lia. by apply Hxs.
Qed.

(** X12. A search that succeeds returns one result per id of the store's
    first row, in the store's order; the result at a position carries the
    title, the categories and the distance the store returned at that
    position. *)
Theorem search_results_in_order request w w' response :
  search_papers nearest request w = (w', Ok response) ->
  1 <= req_n_results request <= 100
  /\ exists col r ids,
       collections w !! COLLECTION = Some col
       /\ nearest col [req_query request] (req_n_results request) = Some r
       /\ res_ids r !! 0%nat = Some ids
       /\ sr_id <$> results response = ids
       /\ forall k x, results response !! k = Some x ->
            exists ms ds m d,
              res_metadatas r !! 0%nat = Some ms /\ ms !! k = Some m
              /\ res_distances r !! 0%nat = Some ds /\ ds !! k = Some d
              /\ sr_title x = meta_title m
              /\ meta_categories m = JStr (sr_categories x)
              /\ sr_distance x = d.
Proof.
  unfold search_papers.
  destruct (req_n_results request <? 1) eqn:H1; [done|].
  destruct (100 <? req_n_results request) eqn:H2; [done|]. cbn [orb].
  unfold bind, collection_query, lift. cbn.
  destruct (collections w !! COLLECTION) as [col|] eqn:Hcol; [|done].
  destruct (nearest col _ _) as [r|] eqn:Hr; [|done]. cbn.
  destruct (PyStr.index (res_ids r) 0) as [ids|] eqn:Hids; [|done]. cbn.
  destruct (search_results r 0 ids) as [xs|] eqn:Hxs; [|done]. cbn.
  intros ?; simplify_eq. split; [lia|].
  apply search_results_ok in Hxs as [Hid Hxs].
  exists col, r, ids. split_and!; try done. by apply index_ok.
Qed.

End ServiceFacts.

Section ConfigFacts.

Import PyStr.

Lemma join_split c s : join c (split c s) = s.
Proof.
  induction s as [|a s IH]; [done|]. cbn [split].
  destruct (split_cons c s) as (f & fs & Hs). rewrite Hs in *.
  destruct (Ascii.eqb a c) eqn:Hac.
  - apply Ascii.eqb_eq in Hac as ->.
    change (join c (EmptyString :: f :: fs))
      with (EmptyString +:+ String c (join c (f :: fs))).
    by rewrite IH.
  - destruct fs as [|f' fs]; [cbn in *; by subst|].
    change (join c (String a f :: f' :: fs))
      with (String a (join c (f :: f' :: fs))).
    by rewrite IH.
Qed.

Lemma split_no_sep c s : contains c s = false -> split c s = [s].
Proof.
  induction s as [|a s IH]; [done|]. cbn.
  destruct (Ascii.eqb a c); [done|]. intros H. by rewrite IH.
Qed.

Lemma split_join c l :
  l <> [] -> Forall (fun s => contains c s = false) l ->
  split c (join c l) = l.
Proof.
  intros Hl H. induction H as [|s l Hs Hrest IH]; [done|].
  destruct l as [|s' l]; [by apply split_no_sep|].
  change (join c (s :: s' :: l)) with (s +:+ String c (join c (s' :: l))).
  rewrite split_app_sep by done. by rewrite IH.
Qed.

Lemma split_fields c s : Forall (fun f => contains c f = false) (split c s).
Proof.
  induction s as [|a s IH]; [by repeat constructor|]. cbn [split].
  destruct (split_cons c s) as (f & fs & Hs). rewrite Hs in *.
  inv IH. destruct (Ascii.eqb a c) eqn:Hac.
  - by repeat constructor.
  - constructor; [|done]. cbn. by rewrite Hac.
Qed.

(** X13. The allowed origins are the fields of [CORS_ORIGINS] between its
    commas, or the one development origin when the variable is not set:
    there is always at least one, none holds a comma, and joined by commas
    they give back the variable's value. Conversely a value written by
    joining comma-free origins with commas yields exactly those origins.
    Nothing is trimmed, and an empty value yields one empty origin. *)
Theorem cors_origins_fields CORS_ORIGINS :
  cors_origins CORS_ORIGINS <> []
  /\ Forall (fun o => contains "," o = false) (cors_origins CORS_ORIGINS)
  /\ join "," (cors_origins CORS_ORIGINS)
     = default "http://localhost:5173" CORS_ORIGINS
  /\ cors_origins None = ["http://localhost:5173"]
  /\ cors_origins (Some EmptyString) = [EmptyString]
  /\ (forall origins,
        origins <> [] -> Forall (fun o => contains "," o = false) origins ->
        cors_origins (Some (join "," origins)) = origins).
Proof.
  unfold cors_origins, getenv. split_and!.
  - by destruct (split_cons "," (default "http://localhost:5173"
                                            CORS_ORIGINS)) as (f & fs & ->).
  - apply split_fields.
  - apply join_split.
  - reflexivity.
  - reflexivity.
  - intros origins Hne Hc. cbn. by apply split_join.
Qed.

End ConfigFacts.

(** ** The further statements at sample inputs *)

Section MoreInstances.

Import Sample.

Lemma year_of_forms_witness :
  get_year_from_arxiv_id "2301.12345" = Ok (Some 2023)
  /\ get_year_from_arxiv_id "hep-th/9901001" = Ok (Some 1999).
Proof.
  split.
  - apply (year_of_forms "2" "3" 2 3 "01" "12345" "hep-th"); reflexivity.
  - apply (year_of_forms "9" "9" 9 9 "" "01001" "hep-th"); reflexivity.
Defined.

Lemma loaded_text_is_clean_witness :
  Forall (fun p =>
            PyStr.strip (paper_title p) = paper_title p
            /\ PyStr.contains "010" (paper_title p) = false
            /\ PyStr.strip (paper_abstract p) = paper_abstract p
            /\ PyStr.contains "010" (paper_abstract p) = false)
         [{| paper_id := JStr "1501.00003"; paper_title := "Deep learning";
             paper_abstract := "Nets."; paper_categories := JStr "" |}].
Proof.
  apply (loaded_text_is_clean Cases.json_loads (data ["messy"]) DATA_FILE
           None None).
  vm_compute. reflexivity.
Defined.

Lemma load_papers_capped_witness :
  load_papers json_loads (data ["quantum"; "graphs"]) DATA_FILE (Some 5)
              None
  = Ok (take 5 (qualifying json_loads None ["quantum"; "graphs"])).
Proof.
  apply (load_papers_capped json_loads (data ["quantum"; "graphs"])
           DATA_FILE 5 None ["quantum"; "graphs"]); [reflexivity|].
  repeat constructor; eexists; vm_compute; reflexivity.
Defined.

Lemma load_papers_first_error_witness :
  load_papers Cases.json_loads (data ["quantum"; "no_title"; "graphs"])
              DATA_FILE None None = Raise KeyError
  /\ lines_decoded Cases.json_loads
       (data ["quantum"; "no_title"; "graphs"]) DATA_FILE None None
     = 2%nat.
Proof.
  edestruct (load_papers_first_error Cases.json_loads
               (data ["quantum"; "no_title"; "graphs"]) DATA_FILE None None
               ["quantum"] "no_title" ["graphs"]) as (H1 & H2 & _);
    [reflexivity|vm_compute; reflexivity|reflexivity|vm_compute; reflexivity|].
  split; [exact H1|exact H2].
Defined.

Lemma incomplete_record_witness :
  load_line Cases.json_loads None "array" = Raise TypeError
  /\ load_line Cases.json_loads None "no_title" = Raise KeyError.
Proof.
  split.
  - apply (incomplete_record Cases.json_loads None "array" Cases.array);
      [reflexivity|]. intros d H. discriminate H.
  - destruct (incomplete_record Cases.json_loads None "no_title"
                Cases.no_title) as (_ & _ & _ & H); [reflexivity|].
    apply (H (<["id" := JStr "0704.0002"]> ∅) (JStr "0704.0002"));
      reflexivity.
Defined.

Lemma non_string_id_witness :
  load_line Cases.json_loads (Some 2000) "numeric_id" = Raise TypeError
  /\ exists p, load_line Cases.json_loads None "numeric_id" = Ok (Some p)
               /\ paper_id p = JNum "17".
Proof.
  destruct (non_string_id Cases.json_loads 2000 "numeric_id"
              Cases.numeric_id_fields (JNum "17") "Seventeen" "A number.")
    as (H1 & H2 & _); [reflexivity..|intros s H; discriminate H|].
  split; [apply H2; reflexivity|exact H1].
Defined.

Lemma ingest_stores_all_witness :
  exists w',
    ingest embed current Cases.two_papers (fresh []) = (w', Ok tt)
    /\ collections w' !! COLLECTION
       = Some (paper_items embed Cases.two_papers).
Proof.
  destruct (ingest_stores_all embed current Cases.two_papers (fresh []))
    as (w' & Hrun & Hcol & _).
  - repeat constructor; eexists; reflexivity.
  - vm_compute. by apply (bool_decide_unpack _).
  - reflexivity.
  - intros col i H. vm_compute in H. discriminate H.
  - exists w'. split; [exact Hrun|exact Hcol].
Defined.

Lemma clean_run_stores_exactly_witness :
  exists w',
    main embed current json_loads DATA_FILE (args 0 true None)
         Cases.ingested = (w', Ok tt)
    /\ collections w' !! COLLECTION
       = Some (paper_items embed Cases.two_papers).
Proof.
  destruct (clean_run_stores_exactly embed current json_loads DATA_FILE
              (args 0 true None) Cases.ingested Cases.two_papers)
    as (w' & Hrun & Hcol & _).
  - reflexivity.
  - vm_compute. reflexivity.
  - vm_compute. reflexivity.
  - repeat constructor; eexists; reflexivity.
  - vm_compute. by apply (bool_decide_unpack _).
  - reflexivity.
  - exists w'. split; [exact Hrun|exact Hcol].
Defined.

Lemma ingest_again_adds_nothing_witness :
  exists w',
    ingest embed current Cases.two_papers Cases.ingested = (w', Ok tt)
    /\ collections w' = collections Cases.ingested.
Proof.
  edestruct (ingest_again_adds_nothing embed current Cases.two_papers
               Cases.ingested)
    as (w' & Hrun & Hcol & _).
  - reflexivity.
  - vm_compute. reflexivity.
  - repeat constructor; eexists; reflexivity.
  - vm_compute. by apply (bool_decide_unpack _).
  - reflexivity.
  - intros i Hi. vm_compute in Hi |- *. exact Hi.
  - exists w'. split; [exact Hrun|exact Hcol].
Defined.

Lemma search_results_in_order_witness :
  exists w' response,
    search_papers Cases.nearest (parse_request "walks" (Some 1))
                  Cases.ingested = (w', Ok response)
    /\ sr_id <$> results response = ["0704.0001"].
Proof.
  eexists _, _. split; [vm_compute; reflexivity|].
  edestruct (search_results_in_order Cases.nearest
               (parse_request "walks" (Some 1)) Cases.ingested)
    as (_ & col & r & ids & Hc & Hr & Hids & Hres & _);
    [vm_compute; reflexivity|].
  vm_compute in Hc. injection Hc as <-.
  vm_compute in Hr. injection Hr as <-.
  vm_compute in Hids. injection Hids as <-. exact Hres.
Defined.

Lemma early_year_drops_unresolved_witness :
  load_line json_loads (Some 0) "unknown" = Ok None
  /\ exists p, load_line json_loads None "unknown" = Ok (Some p).
Proof.
  destruct (early_year_drops_unresolved (Embedding := string) json_loads
              (args 1000 false (Some 0)) (fresh []) 0 "unknown"
              (fields "preprint-17" "An unnumbered note" "No year.")
              "preprint-17" "An unnumbered note" "No year.")
    as (H & _); [reflexivity|lia|reflexivity..|].
  apply H. reflexivity.
Defined.

End MoreInstances.
